(** * ProtoConverter: the batch worker [ProtocWorker] and the validation in
    [ProtoConverterGUI.start_conversion] ([main.py]).

    The worker builds argument vectors, hands them to [subprocess.run], reads
    the exit code and the captured stderr, and reports through two Qt signals,
    [progress(str)] and [finished(bool, str)].  What lies outside the program
    (the interpreter path, subprocesses, the file system, the user answering
    a dialog) is a parameter of the model, a record [Environment] with a
    state of its own; every call made to it and every signal emitted is
    recorded, in order, in a trace.

    [os.path] is modelled in its POSIX flavour ([posixpath], separator
    ['/']).  A run is the execution of [ProtocWorker.run] from its first
    statement to its return, over the lists the worker was given; killing
    the thread ([cancel_conversion]) is outside the model.

    Python strings are sequences of code points; here a string is the
    sequence of its UTF-8 bytes.  The only operations below that look inside
    a string search for the separator ['/'], a byte that never occurs inside
    a multi-byte UTF-8 sequence, so the two views agree. *)

From Stdlib Require Import String Ascii List ZArith Lia Bool Arith.
From Stdlib Require Import DecimalString.
Import ListNotations.
Local Open Scope list_scope.
Local Open Scope string_scope.

(** ** [os.path], POSIX flavour ([posixpath]) *)

Module PosixPath.

Definition sep : ascii := "/"%char.

Definition is_sep (c : ascii) : bool := Ascii.eqb c sep.

(** [rsplit p = (p[:i], p[i:])] where [i = p.rfind('/') + 1]. *)
Fixpoint rsplit (p : string) : string * string :=
  match p with
  | EmptyString => (EmptyString, EmptyString)
  | String c rest =>
      let (head, tail) := rsplit rest in
      match head with
      | String _ _ => (String c head, tail)
      | EmptyString =>
          if is_sep c then (String c EmptyString, tail)
          else (EmptyString, String c tail)
      end
  end.

(** [all_sep s] is [s == sep * len(s)]. *)
Fixpoint all_sep (s : string) : bool :=
  match s with
  | EmptyString => true
  | String c rest => is_sep c && all_sep rest
  end.

(** [s.rstrip('/')] *)
Fixpoint rstrip_sep (s : string) : string :=
  match s with
  | EmptyString => EmptyString
  | String c rest =>
      match rstrip_sep rest with
      | EmptyString => if is_sep c then EmptyString else String c EmptyString
      | rest' => String c rest'
      end
  end.

(** Truth value of a string: [bool(s)]. *)
Definition nonempty (s : string) : bool :=
  match s with EmptyString => false | String _ _ => true end.

(** [
    def dirname(p):
        i = p.rfind(sep) + 1
        head = p[:i]
        if head and head != sep*len(head):
            head = head.rstrip(sep)
        return head
    ] *)
Definition dirname (p : string) : string :=
  let head := fst (rsplit p) in
  if nonempty head && negb (all_sep head) then rstrip_sep head else head.

(** [
    def basename(p):
        i = p.rfind(sep) + 1
        return p[i:]
    ] *)
Definition basename (p : string) : string := snd (rsplit p).

Definition startswith_sep (s : string) : bool :=
  match s with String c _ => is_sep c | EmptyString => false end.

Fixpoint endswith_sep (s : string) : bool :=
  match s with
  | EmptyString => false
  | String c EmptyString => is_sep c
  | String _ rest => endswith_sep rest
  end.

(** [os.path.join(a, b)]:
    [
        if b.startswith(sep): path = b
        elif not path or path.endswith(sep): path += b
        else: path += sep + b
    ] *)
Definition join (a b : string) : string :=
  if startswith_sep b then b
  else if negb (nonempty a) || endswith_sep a then a ++ b
  else a ++ String sep b.

(** [sep in p] *)
Fixpoint has_sep (p : string) : bool :=
  match p with
  | EmptyString => false
  | String c rest => is_sep c || has_sep rest
  end.

End PosixPath.

(** ** Signals, subprocesses and the environment *)

(** The two signals of [ProtocWorker]: [progress = pyqtSignal(str)] and
    [finished = pyqtSignal(bool, str)], the terminal notification. *)
Inductive notification : Type :=
| Progress (text : string)
| Finished (success : bool) (message : string).

(** What the program reads of a [subprocess.CompletedProcess]. *)
Record CompletedProcess : Type := mkCompleted {
  returncode : Z;
  stderr : string
}.

(** A library call returns, or raises an [Exception] [e]; [Raised] carries
    [str(e)]. *)
Inductive outcome (A : Type) : Type :=
| Returned (a : A)
| Raised (e : string).
Arguments Returned {A} a.
Arguments Raised {A} e.

(** [sys.executable], [subprocess.run(cmd, capture_output=True, text=True)]
    (with or without a timeout), [os.makedirs(path, exist_ok=True)] and the
    user's answer to [QMessageBox.question] ([true] for Yes). *)
Record Environment : Type := mkEnvironment {
  World : Type;
  sys_executable : string;
  subprocess_run : list string -> World -> outcome CompletedProcess * World;
  os_makedirs : string -> World -> outcome unit * World;
  question_yes : string -> string -> World -> bool * World
}.

(** What the worker thread does that can be seen from outside. *)
Inductive event : Type :=
| Emit (n : notification)
| Makedirs (path : string) (r : outcome unit)
| Run (cmd : list string) (r : outcome CompletedProcess).

(** ** A monad for the program: the state of the environment, exceptions,
    and the trace written so far (kept when an exception travels). *)

Section Monad.

Variable env : Environment.
Variable E : Type.

Definition M (A : Type) : Type := World env -> outcome A * World env * list E.

Definition ret {A : Type} (a : A) : M A := fun w => (Returned a, w, []).

Definition bind {A B : Type} (m : M A) (k : A -> M B) : M B :=
  fun w =>
    match m w with
    | (Returned a, w1, t1) =>
        match k a w1 with (r, w2, t2) => (r, w2, (t1 ++ t2)%list) end
    | (Raised e, w1, t1) => (Raised e, w1, t1)
    end.

(** [try: m  except Exception as e: handler(str(e))] *)
Definition try_except {A : Type} (m : M A) (handler : string -> M A) : M A :=
  fun w =>
    match m w with
    | (Returned a, w1, t1) => (Returned a, w1, t1)
    | (Raised e, w1, t1) =>
        match handler e w1 with (r, w2, t2) => (r, w2, (t1 ++ t2)%list) end
    end.

End Monad.

Arguments ret {env E A} a.
Arguments bind {env E A B} m k.
Arguments try_except {env E A} m handler.

Notation "x <- m ;; k" := (bind m (fun x => k))
  (at level 61, m at next level, right associativity).
Notation "m ;;; k" := (bind m (fun _ => k))
  (at level 61, right associativity).

Definition emit {env : Environment} (n : notification) : M env event unit :=
  fun w => (Returned tt, w, [Emit n]).

Definition run_subprocess (env : Environment) (cmd : list string)
  : M env event CompletedProcess :=
  fun w => let (r, w1) := subprocess_run env cmd w in (r, w1, [Run cmd r]).

Definition makedirs (env : Environment) (path : string) : M env event unit :=
  fun w => let (r, w1) := os_makedirs env path w in (r, w1, [Makedirs path r]).

(** [str(n)] for a non-negative [int]. *)
Definition str_of_nat (n : nat) : string :=
  NilEmpty.string_of_uint (Nat.to_uint n).

(** ** [class ProtocWorker] *)

Record ProtocWorker : Type := mkWorker {
  proto_files : list string;
  output_dir : string;
  generate_java : bool;
  generate_python : bool;
  generate_python_grpc : bool;
  protoc_path : string;
  include_paths : list string
}.

(** [__init__], with its defaults [protoc_path="protoc"] and
    [include_paths=None], and [self.include_paths = include_paths or []]. *)
Definition init (proto_files : list string) (output_dir : string)
    (generate_java generate_python generate_python_grpc : bool)
    (protoc_path : option string) (include_paths : option (list string))
  : ProtocWorker :=
  mkWorker proto_files output_dir generate_java generate_python
    generate_python_grpc
    (match protoc_path with Some p => p | None => "protoc" end)
    (match include_paths with Some l => l | None => [] end).

Section Worker.

Variable env : Environment.
Variable self : ProtocWorker.

(** [f"--proto_path={p}"] *)
Definition proto_path_arg (p : string) : string := "--proto_path=" ++ p.

(** Lines 38-43 of [run]: the list starts empty and gets the directory of
    the file when that is not the empty string. *)
Definition with_proto_dir (proto_file : string) : list string :=
  let include_args := [] in
  let proto_dir := PosixPath.dirname proto_file in
  if PosixPath.nonempty proto_dir
  then (include_args ++ [proto_path_arg proto_dir])%list
  else include_args.

(** Lines 46-47: [for include_path in self.include_paths: ...append(...)]. *)
Definition with_include_paths (include_args : list string) : list string :=
  fold_left
    (fun args include_path => (args ++ [proto_path_arg include_path])%list)
    (include_paths self) include_args.

(** Lines 50-51: [if not include_args: include_args.append("--proto_path=.")]. *)
Definition with_fallback (include_args : list string) : list string :=
  match include_args with
  | [] => (include_args ++ ["--proto_path=."])%list
  | _ :: _ => include_args
  end.

Definition compose_include_args (proto_file : string) : list string :=
  with_fallback (with_include_paths (with_proto_dir proto_file)).

(** [f"正在处理: {os.path.basename(proto_file)} ({i+1}/{total_files})"] *)
Definition processing_text (proto_file : string) (i total_files : nat) : string :=
  "正在处理: " ++ PosixPath.basename proto_file
    ++ " (" ++ str_of_nat (i + 1) ++ "/" ++ str_of_nat total_files ++ ")".

Definition java_cmd (java_output : string) (include_args : list string)
    (proto_file : string) : list string :=
  ([protoc_path self; ("--java_out=" ++ java_output)%string]
     ++ include_args ++ [proto_file])%list.

Definition grpc_cmd (output_dir : string) (include_args : list string)
    (proto_file : string) : list string :=
  ([sys_executable env; "-m"; "grpc_tools.protoc";
    ("--python_out=" ++ output_dir)%string;
    ("--grpc_python_out=" ++ output_dir)%string]
     ++ include_args ++ [proto_file])%list.

Definition python_cmd (output_dir : string) (include_args : list string)
    (proto_file : string) : list string :=
  ([sys_executable env; "-m"; "grpc_tools.protoc";
    ("--python_out=" ++ output_dir)%string]
     ++ include_args ++ [proto_file])%list.

(** [_generate_python_with_grpc] *)
Definition _generate_python_with_grpc (proto_file output_dir : string)
    (include_args : list string) : M env event bool :=
  try_except
    (let cmd := grpc_cmd output_dir include_args proto_file in
     result <- run_subprocess env cmd ;;
     if negb (returncode result =? 0)%Z then
       emit (Finished false ("Python gRPC生成失败: " ++ stderr result)) ;;;
       ret false
     else ret true)
    (fun e =>
       emit (Finished false ("Python gRPC生成出错: " ++ e)) ;;;
       ret false).

(** [_generate_python_only] *)
Definition _generate_python_only (proto_file output_dir : string)
    (include_args : list string) : M env event bool :=
  try_except
    (let cmd := python_cmd output_dir include_args proto_file in
     result <- run_subprocess env cmd ;;
     if negb (returncode result =? 0)%Z then
       emit (Finished false ("Python生成失败: " ++ stderr result)) ;;;
       ret false
     else ret true)
    (fun e =>
       emit (Finished false ("Python生成出错: " ++ e)) ;;;
       ret false).

(** The [if self.generate_java:] block of the loop body (lines 53-68);
    [false] stands for its [return]. *)
Definition java_block (proto_file : string) (include_args : list string)
  : M env event bool :=
  if generate_java self then
    let java_output := PosixPath.join (output_dir self) "java" in
    makedirs env java_output ;;;
    let java_cmd := java_cmd java_output include_args proto_file in
    emit (Progress ("生成Java代码: " ++ PosixPath.basename proto_file)) ;;;
    result <- run_subprocess env java_cmd ;;
    if negb (returncode result =? 0)%Z then
      emit (Finished false ("Java生成失败: " ++ stderr result)) ;;;
      ret false
    else ret true
  else ret true.

(** The [if self.generate_python or self.generate_python_grpc:] block
    (lines 70-85); [false] stands for its [return]. *)
Definition python_block (proto_file : string) (include_args : list string)
  : M env event bool :=
  if generate_python self || generate_python_grpc self then
    let python_output := PosixPath.join (output_dir self) "python" in
    makedirs env python_output ;;;
    success <-
      (if generate_python_grpc self then
         emit (Progress ("生成Python + gRPC代码: "
                           ++ PosixPath.basename proto_file)) ;;;
         _generate_python_with_grpc proto_file python_output include_args
       else
         emit (Progress ("生成Python代码: " ++ PosixPath.basename proto_file)) ;;;
         _generate_python_only proto_file python_output include_args) ;;
    if negb success then ret false else ret true
  else ret true.

(** One iteration of [for i, proto_file in enumerate(self.proto_files)];
    [false] stands for a [return] inside the body, [true] for reaching
    [success_count += 1]. *)
Definition loop_body (total_files i : nat) (proto_file : string)
  : M env event bool :=
  emit (Progress (processing_text proto_file i total_files)) ;;;
  let include_args := compose_include_args proto_file in
  continue <- java_block proto_file include_args ;;
  if continue then python_block proto_file include_args else ret false.

(** The loop over the files still to do, the first of them with index [i]:
    [None] when the method returned from inside the loop,
    [Some success_count] when the loop ran out of files. *)
Fixpoint for_each_file (total_files i success_count : nat)
    (files : list string) : M env event (option nat) :=
  match files with
  | [] => ret (Some success_count)
  | proto_file :: rest =>
      continue <- loop_body total_files i proto_file ;;
      if continue
      then for_each_file total_files (S i) (success_count + 1) rest
      else ret None
  end.

(** [ProtocWorker.run] *)
Definition run : M env event unit :=
  try_except
    (let success_count := 0 in
     let total_files := length (proto_files self) in
     r <- for_each_file total_files 0 success_count (proto_files self) ;;
     match r with
     | Some success_count =>
         emit (Finished true
                 ("成功处理 " ++ str_of_nat success_count ++ " 个文件"))
     | None => ret tt
     end)
    (fun e => emit (Finished false ("处理过程中出错: " ++ e))).

(** What an observer sees of a run started in world [w], and how the call
    of [run] itself ends. *)
Definition trace_of (w : World env) : list event := snd (run w).

Definition result_of (w : World env) : outcome unit := fst (fst (run w)).

End Worker.

(** ** The shape of a trace

    A declarative description of what [run] can write, used to state the
    properties below: per file a block that opens with the "processing"
    notification and goes on with the stages of the enabled targets; a
    stage that does not complete ends the blocks. *)

(** The generator behind an invocation: the schema compiler's Java output
    (the spec's NativeLangA), the toolchain with RPC stubs
    (ScriptLangWithRpc), the toolchain alone (ScriptLangBasic). *)
Inductive target : Type := Java | PythonGrpc | PythonOnly.

(** How a stage can end a run: the subprocess exits non-zero, spawning it
    raises, or creating the output directory raises. *)
Inductive stop : Type :=
| ExitNonZero (t : target) (cp : CompletedProcess)
| SpawnFault (t : target) (e : string)
| MakedirsFault (t : target) (e : string).

Definition stop_target (s : stop) : target :=
  match s with ExitNonZero t _ | SpawnFault t _ | MakedirsFault t _ => t end.

Definition stop_valid (s : stop) : Prop :=
  match s with ExitNonZero _ cp => returncode cp <> 0%Z | _ => True end.

(** The texts in front of the stderr of a failed invocation. *)
Definition failure_label (t : target) : string :=
  match t with
  | Java => "Java生成失败: "
  | PythonGrpc => "Python gRPC生成失败: "
  | PythonOnly => "Python生成失败: "
  end.

(** The texts in front of [str(e)] when spawning raised [e]: the handler
    of [run] for the Java block, the handlers of the two Python methods. *)
Definition fault_label (t : target) : string :=
  match t with
  | Java => "处理过程中出错: "
  | PythonGrpc => "Python gRPC生成出错: "
  | PythonOnly => "Python生成出错: "
  end.

Definition progress_label (t : target) : string :=
  match t with
  | Java => "生成Java代码: "
  | PythonGrpc => "生成Python + gRPC代码: "
  | PythonOnly => "生成Python代码: "
  end.

(** The message of the failure notification that follows a stop. *)
Definition stop_text (s : stop) : string :=
  match s with
  | ExitNonZero t cp => failure_label t ++ stderr cp
  | SpawnFault t e => fault_label t ++ e
  | MakedirsFault _ e => "处理过程中出错: " ++ e
  end.

Definition success_text (success_count : nat) : string :=
  "成功处理 " ++ str_of_nat success_count ++ " 个文件".

(** Where the loop was left: the index and the file of the iteration, and
    the stop of the stage. *)
Record halt : Type := mkHalt {
  halt_index : nat;
  halt_file : string;
  halt_stop : stop
}.

(** The "processing" notification of the file [snd p] at index [fst p]. *)
Definition processing_notification (total : nat) (p : nat * string) : notification :=
  Progress (processing_text (snd p) (fst p) total).

Section Shape.

Variable env : Environment.
Variable self : ProtocWorker.

(** The targets a file goes through, in order; the grpc flag wins over the
    plain python flag. *)
Definition java_plan : list target :=
  if generate_java self then [Java] else [].

Definition python_plan : list target :=
  if generate_python_grpc self then [PythonGrpc]
  else if generate_python self then [PythonOnly] else [].

Definition plan : list target := (java_plan ++ python_plan)%list.

Definition target_dir (t : target) : string :=
  PosixPath.join (output_dir self)
    (match t with Java => "java" | PythonGrpc | PythonOnly => "python" end).

Definition target_cmd (t : target) (proto_file : string) : list string :=
  let include_args := compose_include_args self proto_file in
  match t with
  | Java => java_cmd self (target_dir t) include_args proto_file
  | PythonGrpc => grpc_cmd env (target_dir t) include_args proto_file
  | PythonOnly => python_cmd env (target_dir t) include_args proto_file
  end.

Definition target_progress (t : target) (proto_file : string) : notification :=
  Progress (progress_label t ++ PosixPath.basename proto_file).

(** What a stage writes when its subprocess was spawned and returned [cp]. *)
Definition stage_done (t : target) (proto_file : string)
    (cp : CompletedProcess) : list event :=
  [Makedirs (target_dir t) (Returned tt);
   Emit (target_progress t proto_file);
   Run (target_cmd t proto_file) (Returned cp)].

(** What a stage writes up to and including the call at which it stops. *)
Definition stop_events (proto_file : string) (s : stop) : list event :=
  match s with
  | ExitNonZero t cp => stage_done t proto_file cp
  | SpawnFault t e =>
      [Makedirs (target_dir t) (Returned tt);
       Emit (target_progress t proto_file);
       Run (target_cmd t proto_file) (Raised e)]
  | MakedirsFault t e => [Makedirs (target_dir t) (Raised e)]
  end.

(** The call at which a stop happens: the last of [stop_events]. *)
Definition stop_event (proto_file : string) (s : stop) : event :=
  match s with
  | ExitNonZero t cp => Run (target_cmd t proto_file) (Returned cp)
  | SpawnFault t e => Run (target_cmd t proto_file) (Raised e)
  | MakedirsFault t e => Makedirs (target_dir t) (Raised e)
  end.

(** [stages f ts tr s]: [tr] is what the stages of the targets [ts] write
    for file [f]; [s] says where and why they stopped, if they did. *)
Inductive stages (f : string) : list target -> list event -> option stop -> Prop :=
| stages_nil : stages f [] [] None
| stages_done t ts cp tr s :
    returncode cp = 0%Z ->
    stages f ts tr s ->
    stages f (t :: ts) (stage_done t f cp ++ tr)%list s
| stages_stop t ts s :
    stop_target s = t ->
    stop_valid s ->
    stages f (t :: ts) (stop_events f s) (Some s).

(** [blocks total i files tr h]: [tr] is what the loop writes for [files],
    the first of which has index [i]; [h] is where the loop was left, if it
    was.  A block is followed by another only when all its stages are done. *)
Inductive blocks (total : nat) : nat -> list string -> list event ->
    option halt -> Prop :=
| blocks_nil i : blocks total i [] [] None
| blocks_next i f fs b tr h :
    stages f plan b None ->
    blocks total (S i) fs tr h ->
    blocks total i (f :: fs)
      (Emit (Progress (processing_text f i total)) :: b ++ tr)%list h
| blocks_stop i f fs b s :
    stages f plan b (Some s) ->
    blocks total i (f :: fs)
      (Emit (Progress (processing_text f i total)) :: b)%list
      (Some (mkHalt i f s)).

(** The terminal notification that closes a run. *)
Definition closing (h : option halt) : notification :=
  match h with
  | None => Finished true (success_text (length (proto_files self)))
  | Some h => Finished false (stop_text (halt_stop h))
  end.

(** The number of files whose iteration was begun. *)
Definition started (h : option halt) : nat :=
  match h with
  | None => length (proto_files self)
  | Some h => S (halt_index h)
  end.

(** The notifications of a file all of whose stages are done: the
    "processing" notification, then one per enabled target. *)
Definition file_notifications (total : nat) (p : nat * string) : list notification :=
  processing_notification total p
    :: map (fun t => target_progress t (snd p)) plan.

(** An exception that leaves the loop body: raised by [os.makedirs], or by
    [subprocess.run] in the Java block, which has no handler of its own. *)
Definition escapes (s : stop) (e : string) : Prop :=
  s = SpawnFault Java e \/ exists t, s = MakedirsFault t e.

(** How the result of a block of the loop body relates to what it wrote. *)
Definition ends (f : string) (ts : list target) (r : outcome bool)
    (tr : list event) : Prop :=
  match r with
  | Returned true => stages f ts tr None
  | Returned false =>
      exists b s, stages f ts b (Some s)
                  /\ tr = (b ++ [Emit (Finished false (stop_text s))])%list
  | Raised e => exists s, stages f ts tr (Some s) /\ escapes s e
  end.

Definition loop_ends (total i success_count : nat) (files : list string)
    (r : outcome (option nat)) (tr : list event) : Prop :=
  match r with
  | Returned (Some n) =>
      blocks total i files tr None /\ n = success_count + length files
  | Returned None =>
      exists b h,
        blocks total i files b (Some h)
        /\ tr = (b ++ [Emit (Finished false (stop_text (halt_stop h)))])%list
  | Raised e =>
      exists h, blocks total i files tr (Some h) /\ escapes (halt_stop h) e
  end.

End Shape.

(** [enumerate(files, start=i)] *)
Definition enumerate_from (i : nat) (files : list string) : list (nat * string) :=
  combine (seq i (length files)) files.

(** ** Reading a trace *)

(** The notifications of a trace, in order. *)
Fixpoint notifications (tr : list event) : list notification :=
  match tr with
  | [] => []
  | Emit n :: tr' => n :: notifications tr'
  | _ :: tr' => notifications tr'
  end.

(** The argument vectors handed to [subprocess.run], in order. *)
Fixpoint commands (tr : list event) : list (list string) :=
  match tr with
  | [] => []
  | Run cmd _ :: tr' => cmd :: commands tr'
  | _ :: tr' => commands tr'
  end.

Definition is_progress (n : notification) : bool :=
  match n with Progress _ => true | Finished _ _ => false end.

Definition is_finished (n : notification) : bool :=
  match n with Progress _ => false | Finished _ _ => true end.

(** [s.startswith(prefix)] *)
Fixpoint startswith (s prefix : string) {struct prefix} : bool :=
  match prefix with
  | EmptyString => true
  | String a prefix' =>
      match s with
      | EmptyString => false
      | String b s' => Ascii.eqb a b && startswith s' prefix'
      end
  end.

(** The per-file notification that names the file and its position. *)
Definition is_processing (n : notification) : bool :=
  match n with
  | Progress text => startswith text "正在处理: "
  | Finished _ _ => false
  end.

(** The notification with which the RPC form of the Python block begins. *)
Definition is_grpc_progress (n : notification) : bool :=
  match n with
  | Progress text => startswith text "生成Python + gRPC代码: "
  | Finished _ _ => false
  end.

(** A call that did what it was asked: [os.makedirs] returned, the
    subprocess was spawned and exited with code 0.  Emitting always does. *)
Definition succeeded (ev : event) : Prop :=
  match ev with
  | Emit _ => True
  | Makedirs _ (Returned _) => True
  | Makedirs _ (Raised _) => False
  | Run _ (Returned cp) => returncode cp = 0%Z
  | Run _ (Raised _) => False
  end.

(** A call that raised an exception with text [e]. *)
Definition raised_by (ev : event) (e : string) : Prop :=
  match ev with
  | Makedirs _ (Raised e') => e' = e
  | Run _ (Raised e') => e' = e
  | _ => False
  end.

Definition not_finished (ev : event) : Prop :=
  match ev with Emit (Finished _ _) => False | _ => True end.

(** An invocation of the code-generation toolchain:
    [<interpreter> -m grpc_tools.protoc ...]. *)
Definition is_toolchain (cmd : list string) : bool :=
  match cmd with
  | _ :: m :: module :: _ =>
      String.eqb m "-m" && String.eqb module "grpc_tools.protoc"
  | _ => false
  end.

(** [needle in haystack] *)
Fixpoint occurs_in (needle haystack : string) : bool :=
  startswith haystack needle
  || match haystack with
     | EmptyString => false
     | String _ rest => occurs_in needle rest
     end.

(** ** [ProtoConverterGUI.start_conversion] *)

(** The state of the window that [start_conversion] reads. *)
Record ProtoConverterGUI : Type := mkGUI {
  gui_proto_files : list string;        (* self.proto_files *)
  gui_include_paths : list string;      (* self.include_paths *)
  output_dir_edit : string;             (* self.output_dir_edit.text() *)
  java_checkbox : bool;
  python_checkbox : bool;
  python_grpc_checkbox : bool;
  python_interpreter_edit : string;
  protoc_path_edit : string
}.

Inductive box : Type := Warning | Information | Critical.

(** What the GUI thread does that can be seen from outside.  Enabling and
    disabling buttons and the progress bar are left out. *)
Inductive gui_event : Type :=
| MessageBox (kind : box) (title text : string)
| Question (title text : string) (yes : bool)
| Log (message : string)
| StatusLabel (text : string)
| Probe (cmd : list string) (r : outcome CompletedProcess)
| CreateDir (path : string) (r : outcome unit)
| StartWorker (worker : ProtocWorker).

Definition newline : string := String (ascii_of_nat 10) EmptyString.

Section GUI.

Variable env : Environment.
Variable self : ProtoConverterGUI.

Definition message_box (kind : box) (title text : string) : M env gui_event unit :=
  fun w => (Returned tt, w, [MessageBox kind title text]).

Definition question (title text : string) : M env gui_event bool :=
  fun w => let (yes, w1) := question_yes env title text w in
           (Returned yes, w1, [Question title text yes]).

Definition log_message (message : string) : M env gui_event unit :=
  fun w => (Returned tt, w, [Log message]).

Definition set_status (text : string) : M env gui_event unit :=
  fun w => (Returned tt, w, [StatusLabel text]).

Definition probe (cmd : list string) : M env gui_event CompletedProcess :=
  fun w => let (r, w1) := subprocess_run env cmd w in (r, w1, [Probe cmd r]).

Definition create_dir (path : string) : M env gui_event unit :=
  fun w => let (r, w1) := os_makedirs env path w in (r, w1, [CreateDir path r]).

Definition start_worker (worker : ProtocWorker) : M env gui_event unit :=
  fun w => (Returned tt, w, [StartWorker worker]).

(** [check_grpcio_tools_status] *)
Definition check_grpcio_tools_status : M env gui_event unit :=
  try_except
    (let python_exe := python_interpreter_edit self in
     result <- probe [python_exe; "-c"; "import grpc_tools.protoc; print('OK')"] ;;
     if (returncode result =? 0)%Z
     then set_status "✓ 已安装"
     else set_status "✗ 未安装")
    (fun _ => set_status "✗ 检查失败").

(** [install_grpcio_tools] *)
Definition install_grpcio_tools : M env gui_event unit :=
  reply <- question "安装确认"
             ("是否要安装grpcio-tools?" ++ newline ++ "这可能需要几分钟时间。") ;;
  if reply then
    try_except
      (let python_exe := python_interpreter_edit self in
       log_message "正在安装grpcio-tools..." ;;;
       result <- probe [python_exe; "-m"; "pip"; "install"; "grpcio-tools"] ;;
       if (returncode result =? 0)%Z then
         log_message "✓ grpcio-tools安装成功" ;;;
         check_grpcio_tools_status ;;;
         message_box Information "安装成功" "grpcio-tools已成功安装!"
       else
         log_message ("✗ grpcio-tools安装失败: " ++ stderr result) ;;;
         message_box Warning "安装失败" ("安装失败:" ++ newline ++ stderr result))
      (fun e =>
         log_message ("✗ 安装过程出错: " ++ e) ;;;
         message_box Critical "安装错误" ("安装过程出错:" ++ newline ++ e))
  else ret tt.

(** Lines 581-600 of [start_conversion]: the check for grpcio-tools;
    [false] stands for its [return]s. *)
Definition grpc_tools_check (generate_python_grpc : bool) : M env gui_event bool :=
  if generate_python_grpc then
    let python_exe := python_interpreter_edit self in
    try_except
      (result <- probe [python_exe; "-c"; "import grpc_tools.protoc"] ;;
       if negb (returncode result =? 0)%Z then
         reply <- question "缺少依赖" "grpcio-tools未安装，是否现在安装？" ;;
         if reply then install_grpcio_tools ;;; ret false
         else ret false
       else ret true)
      (fun _ =>
         message_box Warning "错误" "无法检查grpcio-tools状态" ;;;
         ret false)
  else ret true.

(** [start_conversion] *)
Definition start_conversion : M env gui_event unit :=
  match gui_proto_files self with
  | [] => message_box Warning "错误" "请选择至少一个Proto文件"
  | _ :: _ =>
      let output_dir := output_dir_edit self in
      if negb (PosixPath.nonempty output_dir) then
        message_box Warning "错误" "请选择输出目录"
      else
        let generate_java := java_checkbox self in
        let generate_python := python_checkbox self in
        let generate_python_grpc := python_grpc_checkbox self in
        if negb generate_java && negb generate_python && negb generate_python_grpc
        then message_box Warning "错误" "请至少选择一种生成选项"
        else
          continue <- grpc_tools_check generate_python_grpc ;;
          if continue then
            create_dir output_dir ;;;
            let worker :=
              init (gui_proto_files self) output_dir generate_java
                generate_python generate_python_grpc
                (Some (protoc_path_edit self)) (Some (gui_include_paths self)) in
            log_message "开始转换..." ;;;
            start_worker worker
          else ret tt
  end.

End GUI.

(** The warning for the first rule broken, in the order in which
    [start_conversion] checks them: files, output directory, targets. *)
Definition rejection_text (gui : ProtoConverterGUI) : string :=
  match gui_proto_files gui with
  | [] => "请选择至少一个Proto文件"
  | _ :: _ =>
      if PosixPath.nonempty (output_dir_edit gui)
      then "请至少选择一种生成选项"
      else "请选择输出目录"
  end.

(** A process is spawned, a directory made or a worker started. *)
Definition spawns_or_starts (ev : gui_event) : bool :=
  match ev with
  | Probe _ _ | CreateDir _ _ | StartWorker _ => true
  | _ => false
  end.

(** ** Concrete environments and jobs *)

(** An environment that answers by the number of the call: the [n]-th
    [subprocess.run] gets [runs n], the [n]-th [os.makedirs] gets [dirs n];
    the user says No. *)
Definition scripted (runs : nat -> outcome CompletedProcess)
    (dirs : nat -> outcome unit) : Environment :=
  {| World := nat * nat;
     sys_executable := "/usr/bin/python3";
     subprocess_run := fun _ w => (runs (fst w), (S (fst w), snd w));
     os_makedirs := fun _ w => (dirs (snd w), (fst w, S (snd w)));
     question_yes := fun _ _ w => (false, w) |}.

Definition exit_ok : CompletedProcess := mkCompleted 0 EmptyString.

Definition exit_boom : CompletedProcess := mkCompleted 1 "boom".

(** Every call succeeds. *)
Definition all_ok : Environment :=
  scripted (fun _ => Returned exit_ok) (fun _ => Returned tt).

(** The [k]-th subprocess exits with code 1 and stderr ["boom"]. *)
Definition fails_at (k : nat) : Environment :=
  scripted (fun n => if Nat.eqb n k then Returned exit_boom else Returned exit_ok)
    (fun _ => Returned tt).

(** No directory can be made. *)
Definition read_only : Environment :=
  scripted (fun _ => Returned exit_ok) (fun _ => Raised "Permission denied").

Definition one_file_java : ProtocWorker :=
  init ["/srv/api/user.proto"] "out" true false false None None.

Definition three_files_java : ProtocWorker :=
  init ["/srv/a.proto"; "/srv/b.proto"; "/srv/c.proto"] "out"
    true false false None None.

Definition two_files_grpc : ProtocWorker :=
  init ["/srv/a.proto"; "/srv/b.proto"] "out" false true true None None.

Definition bare_file_no_paths : ProtocWorker :=
  init ["user.proto"] "out" true false false None None.

Definition nothing_selected : ProtoConverterGUI :=
  mkGUI [] [] EmptyString false false false "python" "protoc".

(** ** The lists of the window and the actions of its user *)

(** [x in l] for a list of strings. *)
Definition contains (l : list string) (x : string) : bool :=
  existsb (String.eqb x) l.

(** [for file in files: if file not in self.proto_files:
    self.proto_files.append(file)] *)
Definition append_new (proto_files files : list string) : list string :=
  fold_left
    (fun acc file => if contains acc file then acc else (acc ++ [file])%list)
    files proto_files.

(** The window: the state that [start_conversion] reads, and the two
    read-only boxes that show the lists ([self.file_list],
    [self.include_list]). *)
Record Window : Type := mkWindow {
  settings : ProtoConverterGUI;
  file_list : string;
  include_list : string
}.

Definition set_proto_files (l : list string) (win : Window) : Window :=
  let g := settings win in
  mkWindow
    (mkGUI l (gui_include_paths g) (output_dir_edit g) (java_checkbox g)
       (python_checkbox g) (python_grpc_checkbox g)
       (python_interpreter_edit g) (protoc_path_edit g))
    (file_list win) (include_list win).

Definition set_include_paths (l : list string) (win : Window) : Window :=
  let g := settings win in
  mkWindow
    (mkGUI (gui_proto_files g) l (output_dir_edit g) (java_checkbox g)
       (python_checkbox g) (python_grpc_checkbox g)
       (python_interpreter_edit g) (protoc_path_edit g))
    (file_list win) (include_list win).

Definition set_output_dir (text : string) (win : Window) : Window :=
  let g := settings win in
  mkWindow
    (mkGUI (gui_proto_files g) (gui_include_paths g) text (java_checkbox g)
       (python_checkbox g) (python_grpc_checkbox g)
       (python_interpreter_edit g) (protoc_path_edit g))
    (file_list win) (include_list win).

Definition set_protoc_path (text : string) (win : Window) : Window :=
  let g := settings win in
  mkWindow
    (mkGUI (gui_proto_files g) (gui_include_paths g) (output_dir_edit g)
       (java_checkbox g) (python_checkbox g) (python_grpc_checkbox g)
       (python_interpreter_edit g) text)
    (file_list win) (include_list win).

Definition set_python_interpreter (text : string) (win : Window) : Window :=
  let g := settings win in
  mkWindow
    (mkGUI (gui_proto_files g) (gui_include_paths g) (output_dir_edit g)
       (java_checkbox g) (python_checkbox g) (python_grpc_checkbox g)
       text (protoc_path_edit g))
    (file_list win) (include_list win).

Definition set_checkboxes (java python python_grpc : bool) (win : Window) : Window :=
  let g := settings win in
  mkWindow
    (mkGUI (gui_proto_files g) (gui_include_paths g) (output_dir_edit g)
       java python python_grpc
       (python_interpreter_edit g) (protoc_path_edit g))
    (file_list win) (include_list win).

(** The text [update_file_list] computes:
    ["\n".join([f"• {os.path.basename(f)} ({f})" for f in self.proto_files])],
    or a placeholder for the empty list. *)
Definition file_list_text (proto_files : list string) : string :=
  match proto_files with
  | [] => "未选择任何Proto文件"
  | _ :: _ =>
      String.concat newline
        (map (fun f => "• " ++ PosixPath.basename f ++ " (" ++ f ++ ")")
           proto_files)
  end.

(** The text [update_include_list] computes. *)
Definition include_list_text (include_paths : list string) : string :=
  match include_paths with
  | [] => "未设置include路径"
  | _ :: _ => String.concat newline (map (fun path => "• " ++ path) include_paths)
  end.

(** [update_file_list] *)
Definition update_file_list (win : Window) : Window :=
  mkWindow (settings win)
    (file_list_text (gui_proto_files (settings win))) (include_list win).

(** [update_include_list] *)
Definition update_include_list (win : Window) : Window :=
  mkWindow (settings win) (file_list win)
    (include_list_text (gui_include_paths (settings win))).

(** [add_proto_files]; [files] is what [QFileDialog.getOpenFileNames]
    returned (empty when the dialog was cancelled). *)
Definition add_proto_files (files : list string) (win : Window) : Window :=
  update_file_list
    (set_proto_files (append_new (gui_proto_files (settings win)) files) win).

(** [add_proto_folder]; [folder] is what
    [QFileDialog.getExistingDirectory] returned (the empty string when
    cancelled) and [found] the paths of [Path(folder).glob("**/*.proto")],
    each through [str]. *)
Definition add_proto_folder (folder : string) (found : list string)
    (win : Window) : Window :=
  if PosixPath.nonempty folder then
    update_file_list
      (set_proto_files (append_new (gui_proto_files (settings win)) found) win)
  else win.

(** [clear_proto_files] *)
Definition clear_proto_files (win : Window) : Window :=
  update_file_list (set_proto_files [] win).

(** [add_include_path]; [directory] is what the dialog returned. *)
Definition add_include_path (directory : string) (win : Window) : Window :=
  if PosixPath.nonempty directory
     && negb (contains (gui_include_paths (settings win)) directory)
  then
    update_include_list
      (set_include_paths
         (gui_include_paths (settings win) ++ [directory])%list win)
  else win.

(** [clear_include_paths] *)
Definition clear_include_paths (win : Window) : Window :=
  update_include_list (set_include_paths [] win).

(** [browse_output_dir]; [directory] is what the dialog returned. *)
Definition browse_output_dir (directory : string) (win : Window) : Window :=
  if PosixPath.nonempty directory then set_output_dir directory win else win.

(** [browse_protoc]; [file_path] is what the dialog returned. *)
Definition browse_protoc (file_path : string) (win : Window) : Window :=
  if PosixPath.nonempty file_path then set_protoc_path file_path win else win.

(** [browse_python_interpreter] *)
Definition browse_python_interpreter (file_path : string) (win : Window) : Window :=
  if PosixPath.nonempty file_path
  then set_python_interpreter file_path win else win.

(** What the user can do to the window between two conversions: the
    buttons above with the answers of their dialogs, typing into the three
    line edits, and ticking the check boxes. *)
Inductive action : Type :=
| AddProtoFiles (files : list string)
| AddProtoFolder (folder : string) (found : list string)
| ClearProtoFiles
| AddIncludePath (directory : string)
| ClearIncludePaths
| BrowseOutputDir (directory : string)
| BrowseProtoc (file_path : string)
| BrowsePythonInterpreter (file_path : string)
| TypeOutputDir (text : string)
| TypeProtocPath (text : string)
| TypePythonInterpreter (text : string)
| Tick (java python python_grpc : bool).

Definition perform (win : Window) (a : action) : Window :=
  match a with
  | AddProtoFiles files => add_proto_files files win
  | AddProtoFolder folder found => add_proto_folder folder found win
  | ClearProtoFiles => clear_proto_files win
  | AddIncludePath directory => add_include_path directory win
  | ClearIncludePaths => clear_include_paths win
  | BrowseOutputDir directory => browse_output_dir directory win
  | BrowseProtoc file_path => browse_protoc file_path win
  | BrowsePythonInterpreter file_path => browse_python_interpreter file_path win
  | TypeOutputDir text => set_output_dir text win
  | TypeProtocPath text => set_protoc_path text win
  | TypePythonInterpreter text => set_python_interpreter text win
  | Tick java python python_grpc => set_checkboxes java python python_grpc win
  end.

(** The window as [__init__] and [init_ui] leave it: empty lists, all three
    boxes ticked, ["protoc"], [sys.executable], and
    [os.path.join(os.getcwd(), "proto_output")] as output directory.  The
    two list boxes have no text yet. *)
Definition initial_window (cwd executable : string) : Window :=
  mkWindow
    (mkGUI [] [] (PosixPath.join cwd "proto_output") true true true
       executable "protoc")
    EmptyString EmptyString.

(** The window after a sequence of actions. *)
Definition after (cwd executable : string) (actions : list action) : Window :=
  fold_left perform actions (initial_window cwd executable).

(** What the lists of a window keep: no file twice, no include path twice,
    no empty include path. *)
Definition lists_clean (win : Window) : Prop :=
  NoDup (gui_proto_files (settings win))
  /\ NoDup (gui_include_paths (settings win))
  /\ ~ In EmptyString (gui_include_paths (settings win)).

(** A list box shows its list, or was never written while the list is
    still empty. *)
Definition boxes_in_sync (win : Window) : Prop :=
  (file_list win = file_list_text (gui_proto_files (settings win))
   \/ (file_list win = EmptyString /\ gui_proto_files (settings win) = []))
  /\ (include_list win = include_list_text (gui_include_paths (settings win))
      \/ (include_list win = EmptyString
          /\ gui_include_paths (settings win) = [])).

(** ** [check_python_dependencies] *)

(** [s.replace('-', '_')] *)
Fixpoint replace_dash (s : string) : string :=
  match s with
  | EmptyString => EmptyString
  | String c rest =>
      String (if Ascii.eqb c "-"%char then "_"%char else c) (replace_dash rest)
  end.

Section Dependencies.

Variable env : Environment.
Variable self : ProtoConverterGUI.

Definition dependency_cmd (python_exe dep : string) : list string :=
  [python_exe; "-c"; "import " ++ replace_dash dep ++ "; print('OK')"].

(** The body of the loop: one line of the report for [dep]. *)
Definition check_dependency (python_exe dep : string) : M env gui_event string :=
  try_except
    (result <- probe env (dependency_cmd python_exe dep) ;;
     if (returncode result =? 0)%Z
     then ret ("✓ " ++ dep ++ ": 已安装")
     else ret ("✗ " ++ dep ++ ": 未安装"))
    (fun _ => ret ("✗ " ++ dep ++ ": 检查失败")).

(** [for dep in dependencies: ... results.append(...)] *)
Fixpoint check_each (python_exe : string) (dependencies results : list string)
  : M env gui_event (list string) :=
  match dependencies with
  | [] => ret results
  | dep :: rest =>
      line <- check_dependency python_exe dep ;;
      check_each python_exe rest (results ++ [line])%list
  end.

(** [check_python_dependencies] *)
Definition check_python_dependencies : M env gui_event unit :=
  let python_exe := python_interpreter_edit self in
  let dependencies := ["protobuf"; "grpcio"; "grpcio-tools"] in
  results <- check_each python_exe dependencies [] ;;
  let message :=
    "Python依赖检查结果:" ++ newline ++ newline ++ String.concat newline results in
  message_box env Information "依赖检查" message.

End Dependencies.

(** The line of the report for [dep] after a probe that ended as [r]. *)
Definition dependency_line (dep : string) (r : outcome CompletedProcess) : string :=
  match r with
  | Returned cp =>
      if (returncode cp =? 0)%Z
      then "✓ " ++ dep ++ ": 已安装"
      else "✗ " ++ dep ++ ": 未安装"
  | Raised _ => "✗ " ++ dep ++ ": 检查失败"
  end.

(** The probes of a GUI trace: argument vectors and how they ended. *)
Fixpoint probes (tr : list gui_event) : list (list string * outcome CompletedProcess) :=
  match tr with
  | [] => []
  | Probe cmd r :: tr' => (cmd, r) :: probes tr'
  | _ :: tr' => probes tr'
  end.

(** The workers started in a GUI trace. *)
Fixpoint workers (tr : list gui_event) : list ProtocWorker :=
  match tr with
  | [] => []
  | StartWorker wk :: tr' => wk :: workers tr'
  | _ :: tr' => workers tr'
  end.

(** The message boxes shown in a GUI trace. *)
Fixpoint boxes (tr : list gui_event) : list (box * string * string) :=
  match tr with
  | [] => []
  | MessageBox kind title text :: tr' => (kind, title, text) :: boxes tr'
  | _ :: tr' => boxes tr'
  end.

(** The directories a worker trace asks [os.makedirs] for. *)
Fixpoint made_dirs (tr : list event) : list string :=
  match tr with
  | [] => []
  | Makedirs path _ :: tr' => path :: made_dirs tr'
  | _ :: tr' => made_dirs tr'
  end.

Section Announced.

Variable env : Environment.
Variable self : ProtocWorker.

(** [announced ts fs tr]: every invocation in [tr] comes right after the
    successful creation of its output directory and the progress
    notification that names its target and file. *)
Definition announced (ts : list target) (fs : list string) (tr : list event) : Prop :=
  forall pre cmd r post,
    tr = (pre ++ Run cmd r :: post)%list ->
    exists pre' t f,
      In t ts /\ In f fs
      /\ pre = (pre' ++ [Makedirs (target_dir self t) (Returned tt);
                         Emit (target_progress t f)])%list
      /\ cmd = target_cmd env self t f.

End Announced.

(** The directories a GUI trace asks [os.makedirs] for, and how the calls
    ended. *)
Fixpoint created_dirs (tr : list gui_event) : list (string * outcome unit) :=
  match tr with
  | [] => []
  | CreateDir path r :: tr' => (path, r) :: created_dirs tr'
  | _ :: tr' => created_dirs tr'
  end.

(** The message box that tells how [pip install] ended. *)
Definition install_box (r : outcome CompletedProcess) : box * string * string :=
  match r with
  | Returned cp =>
      if (returncode cp =? 0)%Z
      then (Information, "安装成功", "grpcio-tools已成功安装!")
      else (Warning, "安装失败", "安装失败:" ++ newline ++ stderr cp)
  | Raised e => (Critical, "安装错误", "安装过程出错:" ++ newline ++ e)
  end.

(** The text of the status label after a probe that ended as [r]. *)
Definition status_text (r : outcome CompletedProcess) : string :=
  match r with
  | Returned cp => if (returncode cp =? 0)%Z then "✓ 已安装" else "✗ 未安装"
  | Raised _ => "✗ 检查失败"
  end.

(** The probe ended well: the subprocess was spawned and exited with 0. *)
Definition exited_zero (r : outcome CompletedProcess) : bool :=
  match r with
  | Returned cp => (returncode cp =? 0)%Z
  | Raised _ => false
  end.

(** An environment in which the first subprocess cannot be spawned. *)
Definition no_interpreter : Environment :=
  scripted (fun _ => Raised "No such file or directory") (fun _ => Returned tt).

Definition ready_window : ProtoConverterGUI :=
  mkGUI ["/srv/a.proto"] ["/inc"] "out" true false true "python" "protoc".

(** The three rules [start_conversion] checks first. *)
Definition valid_job (gui : ProtoConverterGUI) : Prop :=
  gui_proto_files gui <> []
  /\ output_dir_edit gui <> EmptyString
  /\ java_checkbox gui || python_checkbox gui || python_grpc_checkbox gui = true.

(** The worker [start_conversion] builds from the window. *)
Definition worker_of (gui : ProtoConverterGUI) : ProtocWorker :=
  init (gui_proto_files gui) (output_dir_edit gui) (java_checkbox gui)
    (python_checkbox gui) (python_grpc_checkbox gui)
    (Some (protoc_path_edit gui)) (Some (gui_include_paths gui)).

(** The probe of [start_conversion] for grpcio-tools. *)
Definition grpc_probe_cmd (gui : ProtoConverterGUI) : list string :=
  [python_interpreter_edit gui; "-c"; "import grpc_tools.protoc"].

(** The check for grpcio-tools lets the conversion go on: the box is not
    ticked, or the probe is spawned and exits with 0. *)
Definition check_passes (env : Environment) (gui : ProtoConverterGUI)
    (w : World env) : bool :=
  negb (python_grpc_checkbox gui)
  || exited_zero (fst (subprocess_run env (grpc_probe_cmd gui) w)).

(** The state of the environment after the check. *)
Definition after_check (env : Environment) (gui : ProtoConverterGUI)
    (w : World env) : World env :=
  if python_grpc_checkbox gui
  then snd (subprocess_run env (grpc_probe_cmd gui) w)
  else w.

(** The question of [install_grpcio_tools] and its [pip] invocation. *)
Definition install_question : string :=
  "是否要安装grpcio-tools?" ++ newline ++ "这可能需要几分钟时间。".

Definition pip_cmd (gui : ProtoConverterGUI) : list string :=
  [python_interpreter_edit gui; "-m"; "pip"; "install"; "grpcio-tools"].

(** The probe of [check_grpcio_tools_status]. *)
Definition status_probe_cmd (gui : ProtoConverterGUI) : list string :=
  [python_interpreter_edit gui; "-c"; "import grpc_tools.protoc; print('OK')"].

(** The user says Yes to every question and every subprocess exits 0. *)
Definition willing : Environment :=
  {| World := nat * nat;
     sys_executable := "/usr/bin/python3";
     subprocess_run := fun _ w => (Returned exit_ok, (S (fst w), snd w));
     os_makedirs := fun _ w => (Returned tt, (fst w, S (snd w)));
     question_yes := fun _ _ w => (true, w) |}.



(** * Properties *)

(** ** [os.path] on examples *)

Example dirname_nested : PosixPath.dirname "/srv/api/user.proto" = "/srv/api".
Proof. reflexivity. Qed.

Example dirname_bare : PosixPath.dirname "user.proto" = EmptyString.
Proof. reflexivity. Qed.

Example dirname_root : PosixPath.dirname "/user.proto" = "/".
Proof. reflexivity. Qed.

Example dirname_doubled : PosixPath.dirname "api//user.proto" = "api".
Proof. reflexivity. Qed.

Example basename_nested : PosixPath.basename "/srv/api/user.proto" = "user.proto".
Proof. reflexivity. Qed.

Example join_plain : PosixPath.join "out" "java" = "out/java".
Proof. reflexivity. Qed.

Example join_slash : PosixPath.join "out/" "java" = "out/java".
Proof. reflexivity. Qed.

(** A path without separator has no head, hence no directory. *)
Lemma rsplit_no_sep (p : string) :
  PosixPath.has_sep p = false -> PosixPath.rsplit p = (EmptyString, p).
Proof.
  induction p as [|c rest IH]; simpl; intros H.
  - reflexivity.
  - apply orb_false_iff in H as [Hc Hrest].
    rewrite (IH Hrest), Hc. reflexivity.
Qed.

Lemma dirname_no_sep (p : string) :
  PosixPath.has_sep p = false -> PosixPath.dirname p = EmptyString.
Proof.
  intros H. unfold PosixPath.dirname. rewrite (rsplit_no_sep p H). reflexivity.
Qed.

(** ** The trace of [run] has the declared shape *)

Section ShapeOfRun.

Variable env : Environment.
Variable self : ProtocWorker.

Local Arguments String.append : simpl never.

Lemma stages_app f ts1 ts2 b1 b2 s :
  stages env self f ts1 b1 None ->
  stages env self f ts2 b2 s ->
  stages env self f (ts1 ++ ts2) (b1 ++ b2) s.
Proof.
  intros H1 H2. remember None as n eqn:En.
  induction H1; subst; try discriminate.
  - exact H2.
  - rewrite <- app_assoc. cbn [app]. constructor; auto.
Qed.

Lemma stages_stop_app f ts1 ts2 b s :
  stages env self f ts1 b (Some s) ->
  stages env self f (ts1 ++ ts2) b (Some s).
Proof.
  intros H1. remember (Some s) as n eqn:En.
  induction H1; subst; try discriminate.
  - cbn [app]. constructor; auto.
  - injection En as ->. cbn [app]. constructor; auto.
Qed.

Lemma stage_done_alone f t cp :
  returncode cp = 0%Z ->
  stages env self f [t] (stage_done env self t f cp) None.
Proof.
  intros H. rewrite <- (app_nil_r (stage_done env self t f cp)).
  apply stages_done; [exact H|constructor].
Qed.

Lemma stage_stop_alone f s :
  stop_valid s ->
  stages env self f [stop_target s] (stop_events env self f s) (Some s).
Proof. intros H. apply stages_stop; auto. Qed.

(** The ways in which a stage goes wrong: the block returns after the
    failure notification of stop [s], or the exception of stop [s] leaves
    the block. *)
Ltac returns_at f s H :=
  exists (stop_events env self f s), s;
  split; [apply (stage_stop_alone f s H)|reflexivity].

Ltac raises_at f s :=
  exists s; split; [apply (stage_stop_alone f s I)|].

Ltac call_makedirs w e w1 :=
  unfold try_except, bind, makedirs, run_subprocess, emit, ret;
  destruct (os_makedirs env _ w) as [[[]|e] w1]; simpl.

Ltac call_subprocess w1 cp e Erc :=
  destruct (subprocess_run env _ w1) as [[cp|e] ?]; simpl;
  [destruct (returncode cp =? 0)%Z eqn:Erc; simpl;
   [apply Z.eqb_eq in Erc|apply Z.eqb_neq in Erc]|].

Lemma java_block_ends f w :
  match java_block env self f (compose_include_args self f) w with
  | (r, _, tr) => ends env self f (java_plan self) r tr
  end.
Proof.
  unfold java_block, java_plan.
  destruct (generate_java self); [|simpl; constructor].
  call_makedirs w e w1; [call_subprocess w1 cp e Erc|].
  - apply (stage_done_alone f Java cp Erc).
  - returns_at f (ExitNonZero Java cp) Erc.
  - raises_at f (SpawnFault Java e). left. reflexivity.
  - raises_at f (MakedirsFault Java e). right. eauto.
Qed.

Lemma python_block_ends f w :
  match python_block env self f (compose_include_args self f) w with
  | (r, _, tr) => ends env self f (python_plan self) r tr
  end.
Proof.
  unfold python_block, python_plan.
  destruct (generate_python_grpc self) eqn:Eg.
  - rewrite orb_true_r. unfold _generate_python_with_grpc.
    call_makedirs w e w1; [call_subprocess w1 cp e Erc|].
    + apply (stage_done_alone f PythonGrpc cp Erc).
    + returns_at f (ExitNonZero PythonGrpc cp) Erc.
    + returns_at f (SpawnFault PythonGrpc e) I.
    + raises_at f (MakedirsFault PythonGrpc e). right. eauto.
  - rewrite orb_false_r.
    destruct (generate_python self) eqn:Ep; [|simpl; constructor].
    unfold _generate_python_only.
    call_makedirs w e w1; [call_subprocess w1 cp e Erc|].
    + apply (stage_done_alone f PythonOnly cp Erc).
    + returns_at f (ExitNonZero PythonOnly cp) Erc.
    + returns_at f (SpawnFault PythonOnly e) I.
    + raises_at f (MakedirsFault PythonOnly e). right. eauto.
Qed.

(** What one iteration writes after its "processing" notification. *)
Lemma loop_body_ends total i f w :
  match loop_body env self total i f w with
  | (r, _, tr) =>
      exists b, tr = Emit (Progress (processing_text f i total)) :: b
                /\ ends env self f (plan self) r b
  end.
Proof.
  unfold loop_body, bind at 1, emit at 1. cbn [app].
  unfold bind.
  pose proof (java_block_ends f w) as Hj.
  destruct (java_block env self f (compose_include_args self f) w)
    as [[[[|]|e] w1] t1].
  - pose proof (python_block_ends f w1) as Hp.
    destruct (python_block env self f (compose_include_args self f) w1)
      as [[r w2] t2].
    exists (t1 ++ t2)%list. split; [reflexivity|].
    unfold ends in *. destruct r as [[|]|e].
    + apply stages_app; assumption.
    + destruct Hp as (b & s & Hb & ->).
      exists (t1 ++ b)%list, s. split; [apply stages_app; assumption|].
      apply app_assoc.
    + destruct Hp as (s & Hb & He).
      exists s. split; [apply stages_app; assumption|assumption].
  - exists t1. unfold ret. split; [rewrite app_nil_r; reflexivity|].
    destruct Hj as (b & s & Hb & ->).
    exists b, s. split; [apply stages_stop_app; assumption|reflexivity].
  - exists t1. split; [reflexivity|].
    destruct Hj as (s & Hb & He).
    exists s. split; [apply stages_stop_app; assumption|assumption].
Qed.

Lemma for_each_file_ends total files : forall i success_count w,
  match for_each_file env self total i success_count files w with
  | (r, _, tr) => loop_ends env self total i success_count files r tr
  end.
Proof.
  induction files as [|f fs IH]; intros i sc w.
  - simpl. split; [constructor|lia].
  - cbn [for_each_file]. unfold bind.
    pose proof (loop_body_ends total i f w) as Hb.
    destruct (loop_body env self total i f w) as [[[[|]|e] w1] t1];
      destruct Hb as (b & -> & Hb); unfold ends in Hb.
    + specialize (IH (S i) (sc + 1) w1).
      destruct (for_each_file env self total (S i) (sc + 1) fs w1)
        as [[r w2] t2].
      unfold loop_ends in *. destruct r as [[n|]|e].
      * destruct IH as [IH ->]. split; [|simpl; lia].
        cbn [app]. constructor; assumption.
      * destruct IH as (b2 & h & IH & ->).
        exists (Emit (Progress (processing_text f i total)) :: b ++ b2)%list, h.
        split; [constructor; assumption|].
        cbn [app]. rewrite app_assoc. reflexivity.
      * destruct IH as (h & IH & He).
        exists h. split; [|assumption].
        cbn [app]. constructor; assumption.
    + unfold ret. rewrite app_nil_r.
      destruct Hb as (b1 & s & Hb & ->).
      exists (Emit (Progress (processing_text f i total)) :: b1)%list,
        (mkHalt i f s).
      split; [constructor; assumption|reflexivity].
    + destruct Hb as (s & Hb & He).
      exists (mkHalt i f s). split; [constructor; assumption|assumption].
Qed.

(** The trace of a run: blocks, then one terminal notification; and no
    exception leaves [run]. *)
Lemma run_shape w :
  exists tr h,
    blocks env self (length (proto_files self)) 0 (proto_files self) tr h
    /\ trace_of env self w = (tr ++ [Emit (closing self h)])%list
    /\ result_of env self w = Returned tt.
Proof.
  unfold trace_of, result_of, run, try_except, bind.
  pose proof (for_each_file_ends (length (proto_files self))
                (proto_files self) 0 0 w) as H.
  destruct (for_each_file env self _ 0 0 (proto_files self) w)
    as [[[[n|]|e] w1] t1]; unfold loop_ends in H.
  - destruct H as [H ->]. exists t1, None. simpl. auto.
  - destruct H as (b & h & H & ->). exists b, (Some h).
    simpl. rewrite app_nil_r. auto.
  - destruct H as (h & H & He). exists t1, (Some h).
    destruct h as [i f s]. simpl in *.
    destruct He as [->|[t ->]]; simpl; auto.
Qed.

End ShapeOfRun.

(** ** Facts about traces of the declared shape *)

Lemma notifications_app (t1 t2 : list event) :
  notifications (t1 ++ t2) = (notifications t1 ++ notifications t2)%list.
Proof.
  induction t1 as [|[n|p r|c r] t1 IH]; simpl; rewrite ?IH; reflexivity.
Qed.

Lemma commands_app (t1 t2 : list event) :
  commands (t1 ++ t2) = (commands t1 ++ commands t2)%list.
Proof.
  induction t1 as [|[n|p r|c r] t1 IH]; simpl; rewrite ?IH; reflexivity.
Qed.

Lemma commands_In (tr : list event) (cmd : list string) :
  In cmd (commands tr) <-> exists r, In (Run cmd r) tr.
Proof.
  induction tr as [|[n|p r|c r] tr IH]; simpl.
  - split; [contradiction|intros [r []]].
  - rewrite IH. split; intros [r H]; exists r; [right; exact H|].
    destruct H as [H|H]; [discriminate|exact H].
  - rewrite IH. split; intros [r' H]; exists r'; [right; exact H|].
    destruct H as [H|H]; [discriminate|exact H].
  - rewrite IH. split.
    + intros [->|[r' H]]; [exists r; left; reflexivity|exists r'; right; exact H].
    + intros [r' [H|H]]; [injection H as -> _; left; reflexivity|right; eauto].
Qed.

(** In a list whose elements before [x] and after [x] all succeeded, a call
    that did not succeed can only be [x]. *)
Lemma unsuccessful_is_unique (pre tail pre' post : list event) (x ev : event) :
  (pre ++ x :: tail)%list = (pre' ++ ev :: post)%list ->
  Forall succeeded pre -> Forall succeeded tail -> ~ succeeded ev ->
  pre' = pre /\ ev = x /\ post = tail.
Proof.
  revert pre'. induction pre as [|a pre IH]; intros pre' E Hpre Htail Hev.
  - destruct pre' as [|b pre']; simpl in E.
    + injection E as <- <-. auto.
    + injection E as _ E. subst tail.
      apply Forall_app in Htail as [_ Htail].
      inversion Htail; contradiction.
  - inversion Hpre as [|? ? Ha Hpre']; subst.
    destruct pre' as [|b pre']; simpl in E.
    + injection E as -> _. contradiction.
    + injection E as <- E.
      destruct (IH pre' E Hpre' Htail Hev) as (-> & -> & ->). auto.
Qed.

Section Facts.

Variable env : Environment.
Variable self : ProtocWorker.

Local Arguments String.append : simpl never.

Lemma stage_done_succeeded t f cp :
  returncode cp = 0%Z ->
  Forall succeeded (stage_done env self t f cp)
  /\ Forall not_finished (stage_done env self t f cp).
Proof. intros H. split; repeat constructor; exact H. Qed.

Lemma stop_event_not_succeeded f s :
  stop_valid s -> ~ succeeded (stop_event env self f s).
Proof. destruct s; simpl; auto. Qed.

Lemma stop_events_split f s :
  exists pre,
    stop_events env self f s = (pre ++ [stop_event env self f s])%list
    /\ Forall succeeded pre /\ Forall not_finished pre.
Proof.
  destruct s as [t cp|t e|t e]; simpl.
  - exists [Makedirs (target_dir self t) (Returned tt);
            Emit (target_progress t f)].
    repeat split; repeat constructor.
  - exists [Makedirs (target_dir self t) (Returned tt);
            Emit (target_progress t f)].
    repeat split; repeat constructor.
  - exists []. repeat split; constructor.
Qed.

Lemma stages_completed f ts tr :
  stages env self f ts tr None ->
  Forall succeeded tr /\ Forall not_finished tr.
Proof.
  intros H. remember None as n eqn:En.
  induction H; subst; try discriminate.
  - split; constructor.
  - destruct (IHstages eq_refl) as [IH1 IH2].
    destruct (stage_done_succeeded t f cp H) as [D1 D2].
    split; apply Forall_app; split; assumption.
Qed.

Lemma stages_stopped f ts tr s :
  stages env self f ts tr (Some s) ->
  exists pre,
    tr = (pre ++ [stop_event env self f s])%list
    /\ Forall succeeded pre /\ Forall not_finished pre
    /\ In (stop_target s) ts /\ stop_valid s.
Proof.
  intros H. remember (Some s) as n eqn:En.
  induction H; subst; try discriminate.
  - destruct (IHstages eq_refl) as (pre & -> & H1 & H2 & H3 & H4).
    destruct (stage_done_succeeded t f cp H) as [D1 D2].
    exists (stage_done env self t f cp ++ pre)%list.
    split; [apply app_assoc|].
    split; [apply Forall_app; split; assumption|].
    split; [apply Forall_app; split; assumption|].
    split; [right; exact H3|exact H4].
  - injection En as ->.
    destruct (stop_events_split f s) as (pre & -> & H1 & H2).
    exists pre. repeat split; auto. left. reflexivity.
Qed.

Lemma blocks_completed total i files tr :
  blocks env self total i files tr None ->
  Forall succeeded tr /\ Forall not_finished tr.
Proof.
  intros H. remember None as n eqn:En.
  induction H; subst; try discriminate.
  - split; constructor.
  - destruct (IHblocks eq_refl) as [IH1 IH2].
    destruct (stages_completed f (plan self) b H) as [Hb1 Hb2].
    split; constructor; simpl; auto; apply Forall_app; auto.
Qed.

Lemma blocks_stopped total i files tr h :
  blocks env self total i files tr (Some h) ->
  exists pre,
    tr = (pre ++ [stop_event env self (halt_file h) (halt_stop h)])%list
    /\ Forall succeeded pre /\ Forall not_finished pre
    /\ In (halt_file h) files
    /\ In (stop_target (halt_stop h)) (plan self)
    /\ stop_valid (halt_stop h).
Proof.
  intros H. remember (Some h) as n eqn:En.
  induction H; subst; try discriminate.
  - destruct (IHblocks eq_refl) as (pre & -> & H1 & H2 & H3 & H4 & H5).
    destruct (stages_completed f (plan self) b H) as [Hb1 Hb2].
    exists (Emit (Progress (processing_text f i total)) :: b ++ pre)%list.
    split; [cbn [app]; rewrite app_assoc; reflexivity|].
    split; [constructor; simpl; auto; apply Forall_app; auto|].
    split; [constructor; simpl; auto; apply Forall_app; auto|].
    split; [right; exact H3|auto].
  - injection En as <-. simpl.
    destruct (stages_stopped f (plan self) b s H) as (pre & -> & H1 & H2 & H3 & H4).
    exists (Emit (Progress (processing_text f i total)) :: pre)%list.
    split; [reflexivity|].
    split; [constructor; simpl; auto|].
    split; [constructor; simpl; auto|].
    split; [left; reflexivity|auto].
Qed.

(** A call of a run that did not succeed is the stop of the run: nothing
    but the failure notification follows it, and no terminal notification
    comes before it. *)
Lemma unsuccessful_call_ends_run w pre ev post :
  trace_of env self w = (pre ++ ev :: post)%list ->
  ~ succeeded ev ->
  exists f s,
    In f (proto_files self) /\ In (stop_target s) (plan self) /\ stop_valid s
    /\ ev = stop_event env self f s
    /\ post = [Emit (Finished false (stop_text s))]
    /\ Forall succeeded pre /\ Forall not_finished pre.
Proof.
  intros E Hev.
  destruct (run_shape env self w) as (tr & h & Hb & Ht & _).
  rewrite Ht in E. destruct h as [h|].
  - destruct (blocks_stopped _ _ _ _ _ Hb) as (pre0 & -> & H1 & H2 & H3 & H4 & H5).
    rewrite <- app_assoc in E. cbn [app] in E.
    destruct (unsuccessful_is_unique pre0 _ pre post _ ev E H1) as (-> & -> & ->);
      [repeat constructor|exact Hev|].
    exists (halt_file h), (halt_stop h). simpl. repeat split; auto.
  - destruct (blocks_completed _ _ _ _ Hb) as [H1 H2].
    exfalso. apply Hev.
    assert (Hall : Forall succeeded (tr ++ [Emit (closing self None)])).
    { apply Forall_app. split; [exact H1|repeat constructor]. }
    rewrite E in Hall. apply Forall_app in Hall as [_ Hall].
    inversion Hall; assumption.
Qed.

(** A run all of whose calls succeeded went through every file. *)
Lemma all_succeeded_completes w :
  Forall succeeded (trace_of env self w) ->
  exists tr,
    blocks env self (length (proto_files self)) 0 (proto_files self) tr None
    /\ trace_of env self w = (tr ++ [Emit (closing self None)])%list.
Proof.
  intros Hall.
  destruct (run_shape env self w) as (tr & h & Hb & Ht & _).
  destruct h as [h|]; [|exists tr; auto].
  destruct (blocks_stopped _ _ _ _ _ Hb) as (pre0 & -> & _ & _ & _ & _ & H5).
  exfalso. apply (stop_event_not_succeeded (halt_file h) (halt_stop h) H5).
  rewrite Ht in Hall. rewrite <- app_assoc in Hall.
  apply Forall_app in Hall as [_ Hall]. inversion Hall; assumption.
Qed.

End Facts.

(** ** Failure and termination of a run *)

Lemma no_finished_in_notifications (tr : list event) :
  Forall not_finished tr -> filter is_finished (notifications tr) = [].
Proof.
  induction 1 as [|ev tr Hev Htr IH]; [reflexivity|].
  destruct ev as [[text|b m]|p r|c r]; simpl in *; try exact IH.
  contradiction.
Qed.

(** C1 (as amended): when an invocation of a run exits non-zero, it is the
    invocation of an enabled target for one of the files; the run stops
    there: what follows is exactly one failure notification, whose message
    is the label of that target followed by the captured stderr and nothing
    else (the runner adds no file name; the file is named only where the
    stderr names it), every call before it succeeded, no terminal
    notification came before, and no further call is made. *)
Theorem nonzero_exit_stops_run (env : Environment) (self : ProtocWorker)
    (w : World env) (pre : list event) (cmd : list string)
    (cp : CompletedProcess) (post : list event) :
  trace_of env self w = (pre ++ Run cmd (Returned cp) :: post)%list ->
  returncode cp <> 0%Z ->
  exists t f,
    In t (plan self) /\ In f (proto_files self)
    /\ cmd = target_cmd env self t f
    /\ post = [Emit (Finished false (failure_label t ++ stderr cp))]
    /\ Forall succeeded pre
    /\ Forall not_finished pre.
Proof.
  intros E Hrc.
  destruct (unsuccessful_call_ends_run env self w pre _ post E)
    as (f & s & Hf & Ht & Hv & Hev & Hpost & Hok & Hpre); [exact Hrc|].
  destruct s as [t cp'|t e|t e]; simpl in Hev; try discriminate.
  injection Hev as -> <-.
  exists t, f. simpl in *. repeat split; assumption.
Qed.

Lemma nonzero_exit_stops_run_witness :
  exists t f,
    In t (plan three_files_java) /\ In f (proto_files three_files_java)
    /\ ["protoc"; "--java_out=out/java"; "--proto_path=/srv"; "/srv/b.proto"]
       = target_cmd (fails_at 1) three_files_java t f
    /\ [Emit (Finished false "Java生成失败: boom")]
       = [Emit (Finished false (failure_label t ++ stderr exit_boom))]
    /\ Forall succeeded
         (firstn 7 (trace_of (fails_at 1) three_files_java (0, 0)))
    /\ Forall not_finished
         (firstn 7 (trace_of (fails_at 1) three_files_java (0, 0))).
Proof.
  apply (nonzero_exit_stops_run (fails_at 1) three_files_java (0, 0)).
  - reflexivity.
  - discriminate.
Defined.

(** C1, as stated, fails: the runner puts the target's label and the
    stderr text into the failure notification and adds no file name; when
    the stderr does not name the file, the notification holds neither the
    path nor the name of the file. *)
Lemma failure_message_omits_file :
  trace_of (fails_at 0) one_file_java (0, 0)
  = [Emit (Progress "正在处理: user.proto (1/1)");
     Makedirs "out/java" (Returned tt);
     Emit (Progress "生成Java代码: user.proto");
     Run ["protoc"; "--java_out=out/java"; "--proto_path=/srv/api";
          "/srv/api/user.proto"] (Returned exit_boom);
     Emit (Finished false "Java生成失败: boom")]
  /\ occurs_in "user.proto" "Java生成失败: boom" = false.
Proof. split; reflexivity. Qed.

(** C8: every run emits exactly one terminal notification, and it is the
    last event of the run: nothing is emitted and nothing is called after
    it, and no terminal notification comes before it. *)
Theorem exactly_one_terminal_and_it_is_last (env : Environment)
    (self : ProtocWorker) (w : World env) :
  exists pre success message,
    trace_of env self w = (pre ++ [Emit (Finished success message)])%list
    /\ Forall not_finished pre
    /\ length (filter is_finished (notifications (trace_of env self w))) = 1.
Proof.
  destruct (run_shape env self w) as (tr & h & Hb & Ht & _).
  assert (Hnf : Forall not_finished tr).
  { destruct h as [h|].
    - destruct (blocks_stopped _ _ _ _ _ _ _ Hb) as (pre0 & -> & _ & H2 & _).
      apply Forall_app. split; [exact H2|].
      constructor; [|constructor].
      destruct (halt_stop h); exact I.
    - apply (blocks_completed _ _ _ _ _ _ Hb). }
  assert (Hc : exists success message, closing self h = Finished success message).
  { destruct h as [h|]; simpl; eauto. }
  destruct Hc as (success & message & Hc).
  exists tr, success, message. rewrite Ht, Hc.
  split; [reflexivity|]. split; [exact Hnf|].
  rewrite notifications_app, filter_app, (no_finished_in_notifications tr Hnf).
  reflexivity.
Qed.

(** C9: no exception leaves [run]; and when a call of a run raises (the
    subprocess cannot be spawned, the output directory cannot be made), the
    run stops there with exactly one failure notification, which carries
    the text of the exception after the label of the handler that caught
    it; no terminal notification came before. *)
Theorem fault_is_caught_and_reported (env : Environment) (self : ProtocWorker)
    (w : World env) :
  result_of env self w = Returned tt
  /\ forall pre ev post e,
       trace_of env self w = (pre ++ ev :: post)%list ->
       raised_by ev e ->
       Forall not_finished pre
       /\ exists label,
            In label ["处理过程中出错: "; "Python gRPC生成出错: "; "Python生成出错: "]
            /\ post = [Emit (Finished false (label ++ e))].
Proof.
  split.
  - destruct (run_shape env self w) as (tr & h & _ & _ & Hr). exact Hr.
  - intros pre ev post e E Hraised.
    assert (Hev : ~ succeeded ev).
    { destruct ev as [n|p [u|e']|c [cp|e']]; simpl in *; auto. }
    destruct (unsuccessful_call_ends_run env self w pre ev post E Hev)
      as (f & s & _ & _ & _ & Hs & -> & _ & Hpre).
    split; [exact Hpre|].
    destruct s as [t cp|t e'|t e']; subst ev; simpl in Hraised.
    + contradiction.
    + subst e'. exists (fault_label t).
      split; [destruct t; simpl; auto|reflexivity].
    + subst e'. exists "处理过程中出错: ". split; [simpl; auto|reflexivity].
Qed.

Lemma fault_is_caught_and_reported_witness :
  Forall not_finished [Emit (Progress "正在处理: user.proto (1/1)")]
  /\ exists label,
       In label ["处理过程中出错: "; "Python gRPC生成出错: "; "Python生成出错: "]
       /\ [Emit (Finished false "处理过程中出错: Permission denied")]
          = [Emit (Finished false (label ++ "Permission denied"))].
Proof.
  apply (proj2 (fault_is_caught_and_reported read_only one_file_java (0, 0))
           [Emit (Progress "正在处理: user.proto (1/1)")]
           (Makedirs "out/java" (Raised "Permission denied"))).
  - reflexivity.
  - reflexivity.
Defined.

(** ** The include arguments *)

Lemma with_include_paths_app (self : ProtocWorker) (include_args : list string) :
  with_include_paths self include_args
  = (include_args ++ map proto_path_arg (include_paths self))%list.
Proof.
  unfold with_include_paths. revert include_args.
  induction (include_paths self) as [|p ps IH]; intros acc; simpl.
  - symmetry. apply app_nil_r.
  - rewrite IH, <- app_assoc. reflexivity.
Qed.

Lemma compose_include_args_nonempty (self : ProtocWorker) (f : string) :
  compose_include_args self f <> [].
Proof.
  unfold compose_include_args, with_fallback.
  destruct (with_include_paths self (with_proto_dir f)); discriminate.
Qed.

Lemma nonempty_true (s : string) : s <> EmptyString -> PosixPath.nonempty s = true.
Proof. destruct s; [contradiction|reflexivity]. Qed.

Section Commands.

Variable env : Environment.
Variable self : ProtocWorker.

(** Every argument vector is a head of options, the include arguments
    composed for the file, and the file. *)
Lemma target_cmd_include_args t f :
  exists head,
    target_cmd env self t f = (head ++ compose_include_args self f ++ [f])%list.
Proof.
  destruct t; unfold target_cmd, java_cmd, grpc_cmd, python_cmd.
  - exists [protoc_path self; "--java_out=" ++ target_dir self Java].
    reflexivity.
  - exists [sys_executable env; "-m"; "grpc_tools.protoc";
            "--python_out=" ++ target_dir self PythonGrpc;
            "--grpc_python_out=" ++ target_dir self PythonGrpc].
    reflexivity.
  - exists [sys_executable env; "-m"; "grpc_tools.protoc";
            "--python_out=" ++ target_dir self PythonOnly].
    reflexivity.
Qed.

Lemma stop_events_commands f s cmd :
  In cmd (commands (stop_events env self f s)) ->
  cmd = target_cmd env self (stop_target s) f.
Proof.
  destruct s as [t cp|t e|t e]; simpl; intros H;
    repeat destruct H as [H|H]; auto; contradiction.
Qed.

Lemma stages_commands f ts tr s cmd :
  stages env self f ts tr s ->
  In cmd (commands tr) ->
  exists t, In t ts /\ cmd = target_cmd env self t f.
Proof.
  intros H. induction H; intros Hin.
  - contradiction.
  - rewrite commands_app in Hin. apply in_app_or in Hin as [Hin|Hin].
    + simpl in Hin. destruct Hin as [<-|[]]. exists t. split; [left|]; reflexivity.
    + destruct (IHstages Hin) as (t' & Ht' & ->).
      exists t'. split; [right; exact Ht'|reflexivity].
  - apply stop_events_commands in Hin. exists t.
    split; [left; reflexivity|]. rewrite Hin, H. reflexivity.
Qed.

Lemma blocks_commands total i files tr h cmd :
  blocks env self total i files tr h ->
  In cmd (commands tr) ->
  exists f t, In f files /\ In t (plan self) /\ cmd = target_cmd env self t f.
Proof.
  intros H. induction H; intros Hin.
  - contradiction.
  - cbn [commands] in Hin. rewrite commands_app in Hin.
    apply in_app_or in Hin as [Hin|Hin].
    + destruct (stages_commands _ _ _ _ _ H Hin) as (t & Ht & ->).
      exists f, t. split; [left; reflexivity|auto].
    + destruct (IHblocks Hin) as (f' & t & Hf' & Ht & ->).
      exists f', t. split; [right; exact Hf'|auto].
  - cbn [commands] in Hin.
    destruct (stages_commands _ _ _ _ _ H Hin) as (t & Ht & ->).
    exists f, t. split; [left; reflexivity|auto].
Qed.

(** The argument vectors of one iteration are those of the enabled targets
    for the file of the iteration. *)
Lemma loop_body_commands total i f w cmd :
  In cmd (commands (snd (loop_body env self total i f w))) ->
  exists t, In t (plan self) /\ cmd = target_cmd env self t f.
Proof.
  pose proof (loop_body_ends env self total i f w) as H.
  destruct (loop_body env self total i f w) as [[r w1] tr].
  destruct H as (b & -> & H). cbn [snd commands]. intros Hin.
  unfold ends in H. destruct r as [[|]|e].
  - apply (stages_commands _ _ _ _ _ H Hin).
  - destruct H as (b' & s & H & ->).
    rewrite commands_app in Hin. simpl in Hin. rewrite app_nil_r in Hin.
    apply (stages_commands _ _ _ _ _ H Hin).
  - destruct H as (s & H & _). apply (stages_commands _ _ _ _ _ H Hin).
Qed.

(** The argument vectors of a run. *)
Lemma run_commands w cmd :
  In cmd (commands (trace_of env self w)) ->
  exists f t,
    In f (proto_files self) /\ In t (plan self)
    /\ cmd = target_cmd env self t f.
Proof.
  destruct (run_shape env self w) as (tr & h & Hb & -> & _).
  rewrite commands_app. simpl. rewrite app_nil_r.
  apply (blocks_commands _ _ _ _ _ _ Hb).
Qed.

End Commands.

(** C4: for a file in directory [D] (its [os.path.dirname], not empty), the
    include arguments composed are [--proto_path=D] followed by one
    [--proto_path=] argument per configured include path, in configured
    order (for the paths [A, B]: those of [D, A, B]); and every invocation
    made for the file carries exactly these, before the file itself. *)
Theorem include_args_are_dir_then_paths (env : Environment)
    (self : ProtocWorker) (f D : string) :
  PosixPath.dirname f = D -> D <> EmptyString ->
  compose_include_args self f = map proto_path_arg (D :: include_paths self)
  /\ forall total i w cmd,
       In cmd (commands (snd (loop_body env self total i f w))) ->
       exists head,
         cmd = (head ++ map proto_path_arg (D :: include_paths self) ++ [f])%list.
Proof.
  intros HD Hne.
  assert (E : compose_include_args self f
              = map proto_path_arg (D :: include_paths self)).
  { unfold compose_include_args. rewrite with_include_paths_app.
    unfold with_proto_dir. rewrite HD, (nonempty_true D Hne). reflexivity. }
  split; [exact E|].
  intros total i w cmd Hin.
  destruct (loop_body_commands env self total i f w cmd Hin) as (t & _ & ->).
  rewrite <- E. apply target_cmd_include_args.
Qed.

Lemma include_args_are_dir_then_paths_witness :
  compose_include_args
    (init ["/srv/api/user.proto"] "out" true true false None (Some ["A"; "B"]))
    "/srv/api/user.proto"
  = ["--proto_path=/srv/api"; "--proto_path=A"; "--proto_path=B"].
Proof.
  apply (include_args_are_dir_then_paths all_ok
           (init ["/srv/api/user.proto"] "out" true true false None
              (Some ["A"; "B"]))
           "/srv/api/user.proto" "/srv/api").
  - reflexivity.
  - discriminate.
Defined.

(** C5: when the include arguments composed from the directory of the file
    and the configured paths are empty, the list handed on is exactly
    [--proto_path=.]; the composed list is never empty, and every invocation
    of a run carries the non-empty list composed for its file. *)
Theorem empty_include_set_falls_back (env : Environment) (self : ProtocWorker) :
  (forall f,
     with_include_paths self (with_proto_dir f) = [] ->
     compose_include_args self f = ["--proto_path=."])
  /\ (forall f, compose_include_args self f <> [])
  /\ (forall w cmd,
        In cmd (commands (trace_of env self w)) ->
        exists f head,
          In f (proto_files self)
          /\ compose_include_args self f <> []
          /\ cmd = (head ++ compose_include_args self f ++ [f])%list).
Proof.
  split; [|split].
  - intros f H. unfold compose_include_args. rewrite H. reflexivity.
  - apply compose_include_args_nonempty.
  - intros w cmd Hin.
    destruct (run_commands env self w cmd Hin) as (f & t & Hf & _ & ->).
    destruct (target_cmd_include_args env self t f) as (head & E).
    exists f, head. split; [exact Hf|].
    split; [apply compose_include_args_nonempty|exact E].
Qed.

Lemma empty_include_set_falls_back_witness :
  compose_include_args bare_file_no_paths "user.proto" = ["--proto_path=."].
Proof.
  apply (proj1 (empty_include_set_falls_back all_ok bare_file_no_paths)).
  reflexivity.
Defined.

(** C10: for a bare file name (no separator in the path) the directory of
    the file contributes nothing; the include arguments are those of the
    configured paths when there are any, and [--proto_path=.] when there
    are none: the fallback applies exactly when the configured list is
    empty too. *)
Theorem bare_filename_omits_directory (self : ProtocWorker) (f : string) :
  PosixPath.has_sep f = false ->
  with_proto_dir f = []
  /\ compose_include_args self f
     = match include_paths self with
       | [] => ["--proto_path=."]
       | _ :: _ => map proto_path_arg (include_paths self)
       end
  /\ (with_include_paths self (with_proto_dir f) = [] <-> include_paths self = []).
Proof.
  intros H.
  assert (E : with_proto_dir f = []).
  { unfold with_proto_dir. rewrite (dirname_no_sep f H). reflexivity. }
  split; [exact E|].
  unfold compose_include_args. rewrite with_include_paths_app, E. simpl.
  split.
  - destruct (include_paths self); reflexivity.
  - destruct (include_paths self); split; intros; [reflexivity|reflexivity
                                                  |discriminate|discriminate].
Qed.

Lemma bare_filename_omits_directory_witness :
  with_proto_dir "user.proto" = []
  /\ compose_include_args
       (init ["user.proto"] "out" true false false None (Some ["A"; "B"]))
       "user.proto"
     = ["--proto_path=A"; "--proto_path=B"]
  /\ (with_include_paths
        (init ["user.proto"] "out" true false false None (Some ["A"; "B"]))
        (with_proto_dir "user.proto") = []
      <-> ["A"; "B"] = []).
Proof.
  apply (bare_filename_omits_directory
           (init ["user.proto"] "out" true false false None (Some ["A"; "B"]))
           "user.proto").
  reflexivity.
Defined.

(** ** The notifications of a run *)

Lemma enumerate_from_cons (i : nat) (f : string) (fs : list string) :
  enumerate_from i (f :: fs) = (i, f) :: enumerate_from (S i) fs.
Proof. reflexivity. Qed.

Lemma enumerate_from_length (i : nat) (fs : list string) :
  length (enumerate_from i fs) = length fs.
Proof.
  unfold enumerate_from. rewrite length_combine, length_seq. apply Nat.min_id.
Qed.

Lemma is_processing_processing_text (f : string) (i total : nat) :
  is_processing (Progress (processing_text f i total)) = true.
Proof. reflexivity. Qed.

Lemma is_processing_target_progress (t : target) (f : string) :
  is_processing (target_progress t f) = false.
Proof. destruct t; reflexivity. Qed.

Section Notifications.

Variable env : Environment.
Variable self : ProtocWorker.

Local Arguments String.append : simpl never.

Lemma stages_notifications f ts tr :
  stages env self f ts tr None ->
  notifications tr = map (fun t => target_progress t f) ts.
Proof.
  intros H. remember None as n eqn:En.
  induction H; subst; try discriminate.
  - reflexivity.
  - rewrite notifications_app, (IHstages eq_refl). reflexivity.
Qed.

Lemma blocks_notifications total i files tr :
  blocks env self total i files tr None ->
  notifications tr = flat_map (file_notifications self total) (enumerate_from i files).
Proof.
  intros H. remember None as n eqn:En.
  induction H; subst; try discriminate.
  - reflexivity.
  - rewrite enumerate_from_cons. cbn [flat_map notifications].
    rewrite notifications_app, (IHblocks eq_refl),
      (stages_notifications f (plan self) b H).
    reflexivity.
Qed.

Lemma stop_events_no_processing f s :
  filter is_processing (notifications (stop_events env self f s)) = [].
Proof.
  destruct s as [t cp|t e|t e]; unfold stop_events, stage_done;
    cbn [notifications filter];
    rewrite ?is_processing_target_progress; reflexivity.
Qed.

Lemma stages_no_processing f ts tr s :
  stages env self f ts tr s ->
  filter is_processing (notifications tr) = [].
Proof.
  intros H. induction H.
  - reflexivity.
  - rewrite notifications_app, filter_app, IHstages.
    unfold stage_done. cbn [notifications filter].
    rewrite is_processing_target_progress. reflexivity.
  - apply stop_events_no_processing.
Qed.

(** The "processing" notifications of the blocks are those of the files
    begun, in order; a halt is at a file of the list. *)
Lemma blocks_processing total i files tr h :
  blocks env self total i files tr h ->
  filter is_processing (notifications tr)
  = map (processing_notification total)
      (firstn (match h with
               | None => length files
               | Some h => S (halt_index h - i)
               end) (enumerate_from i files))
  /\ match h with
     | None => True
     | Some h => i <= halt_index h
                 /\ nth_error files (halt_index h - i) = Some (halt_file h)
     end.
Proof.
  intros H. induction H.
  - split; [reflexivity|exact I].
  - destruct IHblocks as [IH1 IH2].
    assert (E : filter is_processing
                  (notifications
                     (Emit (Progress (processing_text f i total)) :: b ++ tr))
                = processing_notification total (i, f)
                    :: filter is_processing (notifications tr)).
    { cbn [notifications filter]. rewrite is_processing_processing_text.
      rewrite notifications_app, filter_app,
        (stages_no_processing f (plan self) b None H).
      reflexivity. }
    rewrite E, IH1, enumerate_from_cons. clear E.
    destruct h as [h|].
    + destruct IH2 as [Hle Hnth].
      replace (halt_index h - i) with (S (halt_index h - S i)) by lia.
      split; [reflexivity|]. split; [lia|exact Hnth].
    + split; [|exact I]. cbn [length firstn map]. reflexivity.
  - cbn [notifications filter halt_index halt_file].
    rewrite is_processing_processing_text,
      (stages_no_processing f (plan self) b (Some s) H).
    rewrite Nat.sub_diag, enumerate_from_cons. cbn [firstn map nth_error].
    split; [reflexivity|]. split; [lia|reflexivity].
Qed.

End Notifications.

Lemma all_progress_filter (l : list notification) :
  forallb is_progress l = true -> filter is_progress l = l.
Proof.
  induction l as [|n l IH]; simpl; [reflexivity|].
  intros H. apply andb_true_iff in H as [Hn Hl].
  rewrite Hn, (IH Hl). reflexivity.
Qed.

Lemma file_notifications_progress (self : ProtocWorker) (total : nat)
    (l : list (nat * string)) :
  forallb is_progress (flat_map (file_notifications self total) l) = true.
Proof.
  induction l as [|p l IH]; [reflexivity|].
  cbn [flat_map]. rewrite forallb_app, IH, andb_true_r.
  unfold file_notifications. cbn [forallb processing_notification is_progress].
  induction (plan self) as [|t ts IHt]; [reflexivity|exact IHt].
Qed.

Lemma file_notifications_length (self : ProtocWorker) (total : nat)
    (l : list (nat * string)) :
  length (flat_map (file_notifications self total) l)
  = length l * S (length (plan self)).
Proof.
  induction l as [|p l IH]; [reflexivity|].
  cbn [flat_map]. rewrite length_app, IH.
  unfold file_notifications. cbn [length]. rewrite length_map. reflexivity.
Qed.

(** C2 (as amended): in a run over N files all of whose calls succeed, the
    notifications are, file after file in list order, the "processing"
    notification of the file (its name and position i/N) followed by one
    progress notification per enabled target, and then one success
    notification that reports N files: N * (1 + the number of enabled
    invocations per file) progress notifications in all. *)
Theorem successful_run_notifications (env : Environment) (self : ProtocWorker)
    (w : World env) :
  Forall succeeded (trace_of env self w) ->
  notifications (trace_of env self w)
  = (flat_map (file_notifications self (length (proto_files self)))
       (enumerate_from 0 (proto_files self))
     ++ [Finished true (success_text (length (proto_files self)))])%list
  /\ length (filter is_progress (notifications (trace_of env self w)))
     = length (proto_files self) * S (length (plan self)).
Proof.
  intros Hall.
  destruct (all_succeeded_completes env self w Hall) as (tr & Hb & Ht).
  rewrite Ht, notifications_app.
  rewrite (blocks_notifications env self _ _ _ _ Hb).
  split; [reflexivity|].
  rewrite filter_app, all_progress_filter by apply file_notifications_progress.
  cbn [notifications closing filter is_progress]. rewrite app_nil_r.
  rewrite file_notifications_length, enumerate_from_length. reflexivity.
Qed.

Lemma successful_run_notifications_witness :
  notifications (trace_of all_ok three_files_java (0, 0))
  = [Progress "正在处理: a.proto (1/3)"; Progress "生成Java代码: a.proto";
     Progress "正在处理: b.proto (2/3)"; Progress "生成Java代码: b.proto";
     Progress "正在处理: c.proto (3/3)"; Progress "生成Java代码: c.proto";
     Finished true "成功处理 3 个文件"]
  /\ length (filter is_progress
               (notifications (trace_of all_ok three_files_java (0, 0))))
     = 6.
Proof.
  apply (successful_run_notifications all_ok three_files_java (0, 0)).
  repeat constructor.
Defined.

(** C2, as stated, fails: one file, one enabled target, every call
    succeeding, and two progress notifications, not one. *)
Lemma progress_count_exceeds_file_count :
  Forall succeeded (trace_of all_ok one_file_java (0, 0))
  /\ notifications (trace_of all_ok one_file_java (0, 0))
     = [Progress "正在处理: user.proto (1/1)";
        Progress "生成Java代码: user.proto";
        Finished true "成功处理 1 个文件"]
  /\ length (proto_files one_file_java) = 1
  /\ length (filter is_progress
               (notifications (trace_of all_ok one_file_java (0, 0)))) = 2.
Proof. split; [repeat constructor|repeat split]. Qed.

(** The "processing" notifications of blocks closed by the terminal
    notification. *)
Lemma closed_blocks_processing (env : Environment) (self : ProtocWorker)
    (tr : list event) (h : option halt) :
  blocks env self (length (proto_files self)) 0 (proto_files self) tr h ->
  filter is_processing (notifications (tr ++ [Emit (closing self h)]))
  = map (processing_notification (length (proto_files self)))
      (firstn (started self h) (enumerate_from 0 (proto_files self)))
  /\ match h with
     | None => True
     | Some h => nth_error (proto_files self) (halt_index h) = Some (halt_file h)
     end.
Proof.
  intros Hb.
  destruct (blocks_processing env self _ _ _ _ _ Hb) as [Hp Hh].
  rewrite notifications_app, filter_app, Hp.
  assert (Hc : filter is_processing (notifications [Emit (closing self h)]) = []).
  { destruct h; reflexivity. }
  rewrite Hc, app_nil_r.
  destruct h as [h|]; cbn [started].
  - rewrite Nat.sub_0_r in *. split; [reflexivity|apply Hh].
  - split; [reflexivity|exact I].
Qed.

(** C3 (as amended): the trace of a run is a sequence of blocks, one per
    file begun, in list order, closed by the terminal notification.  Each
    block opens with the "processing" notification of its file (name and
    position i/N): it is emitted when the file is begun, before any target
    is invoked for it, and a block is followed by the next one only when
    every enabled target of its file succeeded.  The "processing"
    notifications of a run are therefore those of the files begun: of all
    the files when the run succeeds, and of the files up to and including
    the one at which the run stopped otherwise (two of them when the second
    of three files fails). *)
Theorem processing_notification_opens_each_block (env : Environment)
    (self : ProtocWorker) (w : World env) :
  exists tr h,
    trace_of env self w = (tr ++ [Emit (closing self h)])%list
    /\ blocks env self (length (proto_files self)) 0 (proto_files self) tr h
    /\ filter is_processing (notifications (trace_of env self w))
       = map (processing_notification (length (proto_files self)))
           (firstn (started self h) (enumerate_from 0 (proto_files self)))
    /\ match h with
       | None => True
       | Some h => nth_error (proto_files self) (halt_index h) = Some (halt_file h)
       end.
Proof.
  destruct (run_shape env self w) as (tr & h & Hb & Ht & _).
  exists tr, h. split; [exact Ht|]. split; [exact Hb|].
  rewrite Ht. exact (closed_blocks_processing env self tr h Hb).
Qed.

(** C3, as stated, fails: when the second of three files fails, the
    "processing" notification of the second file has been emitted too,
    before the invocation that failed; four progress notifications precede
    the failure notification, two of them "processing" notifications. *)
Lemma processing_emitted_before_targets :
  trace_of (fails_at 1) three_files_java (0, 0)
  = [Emit (Progress "正在处理: a.proto (1/3)");
     Makedirs "out/java" (Returned tt);
     Emit (Progress "生成Java代码: a.proto");
     Run ["protoc"; "--java_out=out/java"; "--proto_path=/srv"; "/srv/a.proto"]
       (Returned exit_ok);
     Emit (Progress "正在处理: b.proto (2/3)");
     Makedirs "out/java" (Returned tt);
     Emit (Progress "生成Java代码: b.proto");
     Run ["protoc"; "--java_out=out/java"; "--proto_path=/srv"; "/srv/b.proto"]
       (Returned exit_boom);
     Emit (Finished false "Java生成失败: boom")]
  /\ filter is_processing
       (notifications (trace_of (fails_at 1) three_files_java (0, 0)))
     = [Progress "正在处理: a.proto (1/3)"; Progress "正在处理: b.proto (2/3)"]
  /\ length (filter is_progress
               (notifications (trace_of (fails_at 1) three_files_java (0, 0))))
     = 4.
Proof. repeat split. Qed.

(** ** Invocations of the toolchain *)

Lemma is_toolchain_java (env : Environment) (self : ProtocWorker) (f : string) :
  is_toolchain (target_cmd env self Java f) = false.
Proof.
  unfold target_cmd, java_cmd. cbn [app].
  destruct (compose_include_args self f ++ [f])%list; reflexivity.
Qed.

Lemma is_toolchain_grpc (env : Environment) (self : ProtocWorker) (f : string) :
  is_toolchain (target_cmd env self PythonGrpc f) = true.
Proof. reflexivity. Qed.

Section Toolchain.

Variable env : Environment.
Variable self : ProtocWorker.
Hypothesis grpc_enabled : generate_python_grpc self = true.

Local Arguments String.append : simpl never.

Lemma stages_commands_prefix f ts tr s :
  stages env self f ts tr s ->
  exists j,
    commands tr = map (fun t => target_cmd env self t f) (firstn j ts)
    /\ (s = None -> j = length ts).
Proof.
  intros H. induction H.
  - exists 0. auto.
  - destruct IHstages as (j & E & Hj).
    exists (S j). rewrite commands_app, E. split; [reflexivity|].
    intros Hs. simpl. rewrite (Hj Hs). reflexivity.
  - destruct s as [t' cp|t' e|t' e]; simpl in H; subst t'.
    + exists 1. split; [reflexivity|discriminate].
    + exists 1. split; [reflexivity|discriminate].
    + exists 0. split; [reflexivity|discriminate].
Qed.

(** With the grpc flag set, the stages of a file invoke the toolchain once,
    in the RPC form, or not at all when they stop before. *)
Lemma stages_toolchain f b s :
  stages env self f (plan self) b s ->
  (filter is_toolchain (commands b) = [target_cmd env self PythonGrpc f]
   \/ (filter is_toolchain (commands b) = [] /\ s <> None)).
Proof.
  intros H.
  destruct (stages_commands_prefix f (plan self) b s H) as (j & E & Hj).
  rewrite E. unfold plan, java_plan, python_plan in *. rewrite grpc_enabled in *.
  destruct (generate_java self); cbn [app length] in *.
  - destruct j as [|[|j]]; cbn [firstn map filter];
      rewrite ?is_toolchain_java, ?is_toolchain_grpc.
    + right. split; [reflexivity|]. intros Hs. specialize (Hj Hs). discriminate.
    + right. split; [reflexivity|]. intros Hs. specialize (Hj Hs). discriminate.
    + left. destruct j; reflexivity.
  - destruct j as [|j]; cbn [firstn map filter];
      rewrite ?is_toolchain_grpc.
    + right. split; [reflexivity|]. intros Hs. specialize (Hj Hs). discriminate.
    + left. destruct j; reflexivity.
Qed.

Lemma blocks_toolchain total i files tr h :
  blocks env self total i files tr h ->
  exists k,
    filter is_toolchain (commands tr)
    = map (target_cmd env self PythonGrpc) (firstn k files)
    /\ match h with
       | None => k = length files
       | Some h => halt_index h - i <= k <= S (halt_index h - i)
       end.
Proof.
  intros H. induction H.
  - exists 0. auto.
  - destruct IHblocks as (k & E & Hk).
    exists (S k). cbn [commands]. rewrite commands_app, filter_app, E.
    destruct (stages_toolchain f b None H) as [Hb|[_ Hb]]; [|contradiction].
    rewrite Hb. split; [reflexivity|].
    destruct h as [h|]; [|simpl; lia].
    destruct (blocks_processing env self _ _ _ _ _ H0) as [_ [Hle _]]. lia.
  - cbn [commands halt_index]. rewrite Nat.sub_diag.
    destruct (stages_toolchain f b (Some s) H) as [Hb|[Hb _]]; rewrite Hb.
    + exists 1. split; [reflexivity|lia].
    + exists 0. split; [reflexivity|lia].
Qed.

(** With the grpc flag set, the toolchain is invoked as often as the RPC
    form of the Python block announces itself. *)
Lemma stages_toolchain_announced f b s :
  stages env self f (plan self) b s ->
  length (filter is_toolchain (commands b))
  = length (filter is_grpc_progress (notifications b)).
Proof.
  assert (Hplan : Forall (fun t => t <> PythonOnly) (plan self)).
  { unfold plan, java_plan, python_plan. rewrite grpc_enabled.
    destruct (generate_java self); repeat constructor; discriminate. }
  revert Hplan. generalize (plan self) as ts. intros ts Hts H.
  induction H.
  - reflexivity.
  - inversion Hts as [|? ? Ht Hts']; subst.
    rewrite commands_app, notifications_app, !filter_app, !length_app.
    rewrite (IHstages Hts'). f_equal.
    unfold stage_done. cbn [commands notifications filter].
    destruct t; [|reflexivity|contradiction].
    rewrite is_toolchain_java. reflexivity.
  - inversion Hts as [|? ? Ht Hts']; subst.
    destruct s as [t cp|t e|t e]; cbn [stop_target] in Ht;
      unfold stop_events, stage_done; cbn [commands notifications filter];
      destruct t; try contradiction; rewrite ?is_toolchain_java; reflexivity.
Qed.

Lemma blocks_toolchain_announced total i files tr h :
  blocks env self total i files tr h ->
  length (filter is_toolchain (commands tr))
  = length (filter is_grpc_progress (notifications tr)).
Proof.
  intros H. induction H.
  - reflexivity.
  - cbn [commands notifications filter].
    assert (E : is_grpc_progress (Progress (processing_text f i total)) = false)
      by reflexivity.
    rewrite E, commands_app, notifications_app, !filter_app, !length_app.
    rewrite IHblocks, (stages_toolchain_announced f b None H). reflexivity.
  - cbn [commands notifications filter].
    assert (E : is_grpc_progress (Progress (processing_text f i total)) = false)
      by reflexivity.
    rewrite E. apply (stages_toolchain_announced f b (Some s) H).
Qed.

End Toolchain.

Lemma halted_run_not_all_succeeded (env : Environment) (self : ProtocWorker)
    (total i : nat) (files : list string) (tr rest : list event) (h : halt) :
  blocks env self total i files tr (Some h) ->
  ~ Forall succeeded (tr ++ rest).
Proof.
  intros Hb Hall.
  destruct (blocks_stopped env self _ _ _ _ _ Hb) as (pre & -> & _ & _ & _ & _ & Hv).
  apply (stop_event_not_succeeded env self (halt_file h) (halt_stop h) Hv).
  rewrite <- app_assoc in Hall. apply Forall_app in Hall as [_ Hall].
  inversion Hall; assumption.
Qed.

(** C6: with the RPC flag set (the plain python flag set or not), every
    file whose Python block begins (the block announces itself with a
    progress notification) gets exactly one toolchain subprocess, the single
    invocation that asks for [--python_out] and [--grpc_python_out]
    together; two invocations are never made for a file.  The toolchain
    invocations of a run are thus, in list order, one per file for the
    first [k] files, [k] being the number of Python blocks begun: all the
    files when every call of the run succeeds, and otherwise every file
    begun, except the last one begun when the run stopped in it before its
    Python block. *)
Theorem grpc_one_toolchain_invocation_per_file (env : Environment)
    (self : ProtocWorker) (w : World env) :
  generate_python_grpc self = true ->
  exists k,
    filter is_toolchain (commands (trace_of env self w))
    = map (fun f =>
             ([sys_executable env; "-m"; "grpc_tools.protoc";
               ("--python_out="
                  ++ PosixPath.join (output_dir self) "python")%string;
               ("--grpc_python_out="
                  ++ PosixPath.join (output_dir self) "python")%string]
                ++ compose_include_args self f ++ [f])%list)
        (firstn k (proto_files self))
    /\ k = length (filter is_grpc_progress (notifications (trace_of env self w)))
    /\ length (filter is_processing (notifications (trace_of env self w))) - 1 <= k
    /\ k <= length (filter is_processing (notifications (trace_of env self w)))
    /\ (Forall succeeded (trace_of env self w) -> k = length (proto_files self)).
Proof.
  intros Hg.
  destruct (run_shape env self w) as (tr & h & Hb & Ht & _).
  destruct (closed_blocks_processing env self tr h Hb) as [Hp Hh].
  destruct (blocks_toolchain env self Hg _ _ _ _ _ Hb) as (k & E & Hk).
  pose proof (blocks_toolchain_announced env self Hg _ _ _ _ _ Hb) as Ha.
  assert (Hc : filter is_grpc_progress (notifications [Emit (closing self h)]) = []).
  { destruct h; reflexivity. }
  assert (Hc' : filter is_toolchain (commands [Emit (closing self h)]) = [])
    by reflexivity.
  exists k. rewrite Ht, Hp, length_map, length_firstn, enumerate_from_length.
  rewrite commands_app, notifications_app, !filter_app, Hc, Hc', !app_nil_r.
  split; [exact E|].
  rewrite <- Ha, E, length_map, length_firstn.
  destruct h as [h|]; cbn [started].
  - rewrite Nat.sub_0_r in Hk.
    assert (Hlt : halt_index h < length (proto_files self)).
    { apply nth_error_Some. rewrite Hh. discriminate. }
    split; [lia|]. split; [lia|]. split; [lia|].
    intros Hall. exfalso.
    apply (halted_run_not_all_succeeded env self _ _ _ _ _ _ Hb Hall).
  - subst k. split; [lia|]. split; [lia|]. split; [lia|]. reflexivity.
Qed.

Lemma grpc_one_toolchain_invocation_per_file_witness :
  exists k,
    filter is_toolchain (commands (trace_of all_ok two_files_grpc (0, 0)))
    = map (fun f =>
             (["/usr/bin/python3"; "-m"; "grpc_tools.protoc";
               "--python_out=out/python"; "--grpc_python_out=out/python"]
                ++ compose_include_args two_files_grpc f ++ [f])%list)
        (firstn k ["/srv/a.proto"; "/srv/b.proto"])
    /\ k = length (filter is_grpc_progress
                     (notifications (trace_of all_ok two_files_grpc (0, 0))))
    /\ length (filter is_processing
                 (notifications (trace_of all_ok two_files_grpc (0, 0)))) - 1 <= k
    /\ k <= length (filter is_processing
                      (notifications (trace_of all_ok two_files_grpc (0, 0))))
    /\ (Forall succeeded (trace_of all_ok two_files_grpc (0, 0)) -> k = 2).
Proof.
  apply (grpc_one_toolchain_invocation_per_file all_ok two_files_grpc (0, 0)).
  reflexivity.
Defined.

(** A run that stops: with the RPC flag set and the first invocation
    failing, that invocation is the only subprocess; the file after it is
    never begun. *)
Lemma no_toolchain_invocation_after_failure :
  generate_python_grpc two_files_grpc = true
  /\ proto_files two_files_grpc = ["/srv/a.proto"; "/srv/b.proto"]
  /\ commands (trace_of (fails_at 0) two_files_grpc (0, 0))
     = [["/usr/bin/python3"; "-m"; "grpc_tools.protoc";
         "--python_out=out/python"; "--grpc_python_out=out/python";
         "--proto_path=/srv"; "/srv/a.proto"]].
Proof. repeat split. Qed.

(** ** Validation in [start_conversion] *)

(** C7: with no file selected, an empty output directory or no target
    checked, [start_conversion] shows one warning, for the first of these
    rules that is broken, and returns: the environment is untouched, no
    subprocess is spawned, no directory is made and no worker is started. *)
Theorem invalid_job_is_rejected_first (env : Environment)
    (self : ProtoConverterGUI) (w : World env) :
  gui_proto_files self = []
  \/ output_dir_edit self = EmptyString
  \/ (java_checkbox self = false /\ python_checkbox self = false
      /\ python_grpc_checkbox self = false) ->
  start_conversion env self w
  = (Returned tt, w, [MessageBox Warning "错误" (rejection_text self)])
  /\ forallb (fun ev => negb (spawns_or_starts ev))
       (snd (start_conversion env self w)) = true.
Proof.
  intros H. unfold start_conversion, rejection_text.
  destruct (gui_proto_files self) as [|f fs].
  { split; reflexivity. }
  destruct (output_dir_edit self) as [|c d] eqn:Ed.
  { split; reflexivity. }
  destruct H as [H|[H|(Hj & Hp & Hg)]]; try discriminate.
  rewrite Hj, Hp, Hg. split; reflexivity.
Qed.

Lemma invalid_job_is_rejected_first_witness :
  start_conversion all_ok nothing_selected (0, 0)
  = (Returned tt, (0, 0), [MessageBox Warning "错误" "请选择至少一个Proto文件"])
  /\ forallb (fun ev => negb (spawns_or_starts ev))
       (snd (start_conversion all_ok nothing_selected (0, 0))) = true.
Proof.
  apply (invalid_job_is_rejected_first all_ok nothing_selected (0, 0)).
  left. reflexivity.
Defined.

(** * Further properties of the worker *)

Lemma not_finished_not_In (tr : list event) (b : bool) (m : string) :
  Forall not_finished tr -> ~ In (Emit (Finished b m)) tr.
Proof.
  intros H Hin. rewrite Forall_forall in H. exact (H _ Hin).
Qed.

Lemma blocks_not_finished (env : Environment) (self : ProtocWorker)
    (total i : nat) (files : list string) (tr : list event) (h : option halt) :
  blocks env self total i files tr h -> Forall not_finished tr.
Proof.
  intros Hb. destruct h as [h|].
  - destruct (blocks_stopped env self _ _ _ _ _ Hb) as (pre & -> & _ & H & _).
    apply Forall_app. split; [exact H|].
    constructor; [|constructor]. destruct (halt_stop h); exact I.
  - apply (blocks_completed env self _ _ _ _ Hb).
Qed.

(** X1: a run reports success only when every call it made succeeded, and
    then with the number of files of the list; and a run all of whose calls
    succeeded reports success. *)
Theorem success_reported_iff_all_calls_succeeded (env : Environment)
    (self : ProtocWorker) (w : World env) :
  (forall m,
     In (Emit (Finished true m)) (trace_of env self w) ->
     Forall succeeded (trace_of env self w)
     /\ m = success_text (length (proto_files self)))
  /\ (Forall succeeded (trace_of env self w) <->
      exists pre,
        trace_of env self w
        = (pre ++ [Emit (Finished true
                           (success_text (length (proto_files self))))])%list).
Proof.
  destruct (run_shape env self w) as (tr & h & Hb & Ht & _).
  pose proof (blocks_not_finished env self _ _ _ _ _ Hb) as Hnf.
  assert (Hsome : forall m, closing self h = Finished true m ->
                            h = None /\ m = success_text (length (proto_files self))).
  { intros m Hm. destruct h as [h|]; simpl in Hm; [discriminate|].
    injection Hm as <-. auto. }
  assert (Hnone : h = None -> Forall succeeded (trace_of env self w)).
  { intros ->. rewrite Ht. apply Forall_app. split; [|repeat constructor].
    apply (blocks_completed env self _ _ _ _ Hb). }
  split; [|split].
  - intros m Hin. rewrite Ht in Hin. apply in_app_or in Hin as [Hin|Hin].
    + exfalso. exact (not_finished_not_In tr true m Hnf Hin).
    + destruct Hin as [Hin|[]]. injection Hin as Hin.
      destruct (Hsome m Hin) as [Hh Hm]. auto.
  - intros Hall.
    destruct (all_succeeded_completes env self w Hall) as (tr' & _ & Ht').
    exists tr'. exact Ht'.
  - intros [pre Hpre]. apply Hnone.
    rewrite Ht in Hpre. apply app_inj_tail in Hpre as [_ Hc].
    injection Hc as Hc. apply (Hsome _ Hc).
Qed.

Section Invocations.

Variable env : Environment.
Variable self : ProtocWorker.

Local Arguments String.append : simpl never.

Lemma stages_completed_commands f ts tr :
  stages env self f ts tr None ->
  commands tr = map (fun t => target_cmd env self t f) ts.
Proof.
  intros H. remember None as n eqn:En.
  induction H; subst; try discriminate.
  - reflexivity.
  - rewrite commands_app, (IHstages eq_refl). reflexivity.
Qed.

Lemma blocks_completed_commands total i files tr :
  blocks env self total i files tr None ->
  commands tr
  = flat_map (fun f => map (fun t => target_cmd env self t f) (plan self)) files.
Proof.
  intros H. remember None as n eqn:En.
  induction H; subst; try discriminate.
  - reflexivity.
  - cbn [commands flat_map].
    rewrite commands_app, (IHblocks eq_refl),
      (stages_completed_commands f (plan self) b H).
    reflexivity.
Qed.

Lemma made_dirs_app (t1 t2 : list event) :
  made_dirs (t1 ++ t2) = (made_dirs t1 ++ made_dirs t2)%list.
Proof.
  induction t1 as [|[n|p r|c r] t1 IH]; simpl; rewrite ?IH; reflexivity.
Qed.

Lemma stages_counts f ts tr s :
  stages env self f ts tr s ->
  length (commands tr) <= length (made_dirs tr)
  /\ length (made_dirs tr) <= length ts
  /\ Forall (fun p => exists t, In t ts /\ p = target_dir self t) (made_dirs tr).
Proof.
  intros H. induction H.
  - simpl. repeat split; auto.
  - destruct IHstages as (H1 & H2 & H3).
    rewrite commands_app, made_dirs_app, !length_app. simpl.
    split; [lia|]. split; [lia|].
    constructor; [exists t; split; [left|]; reflexivity|].
    eapply Forall_impl; [|exact H3].
    intros p (t' & Ht' & ->). exists t'. split; [right; exact Ht'|reflexivity].
  - destruct s as [t' cp|t' e|t' e]; simpl in H; subst t'; simpl;
      (split; [lia|]); (split; [lia|]);
      constructor; try constructor; exists t; split; try (left; reflexivity);
      reflexivity.
Qed.

Lemma blocks_counts total i files tr h :
  blocks env self total i files tr h ->
  length (commands tr) <= length (made_dirs tr)
  /\ length (made_dirs tr) <= length (plan self) * length files
  /\ Forall (fun p => exists t, In t (plan self) /\ p = target_dir self t)
       (made_dirs tr).
Proof.
  intros H. induction H.
  - simpl. repeat split; auto. lia.
  - destruct IHblocks as (H1 & H2 & H3).
    destruct (stages_counts f (plan self) b None H) as (S1 & S2 & S3).
    cbn [commands made_dirs length].
    rewrite commands_app, made_dirs_app, !length_app.
    split; [lia|]. split; [nia|]. apply Forall_app. auto.
  - destruct (stages_counts f (plan self) b (Some s) H) as (S1 & S2 & S3).
    cbn [commands made_dirs length].
    split; [lia|]. split; [nia|]. exact S3.
Qed.





Lemma announced_nil ts fs : announced env self ts fs [].
Proof. intros pre cmd r post E. destruct pre; discriminate. Qed.

Lemma announced_app ts fs l1 l2 :
  announced env self ts fs l1 -> announced env self ts fs l2 -> announced env self ts fs (l1 ++ l2).
Proof.
  intros H1 H2 pre cmd r post E.
  apply app_eq_app in E as [l [[E1 E2]|[E1 E2]]].
  - destruct l as [|x l].
    + simpl in E2. rewrite app_nil_r in E1. subst l1.
      destruct (H2 [] cmd r post (eq_sym E2)) as (pre' & t & f & _ & _ & E & _).
      destruct pre'; discriminate.
    + simpl in E2. injection E2 as <- ->.
      apply (H1 pre cmd r l E1).
  - destruct (H2 l cmd r post E2) as (pre' & t & f & Ht & Hf & -> & ->).
    exists (l1 ++ pre')%list, t, f. subst pre. rewrite <- app_assoc. auto.
Qed.

Lemma announced_emit ts fs n tr :
  announced env self ts fs tr -> announced env self ts fs (Emit n :: tr).
Proof.
  intros H. apply (announced_app ts fs [Emit n] tr); [|exact H].
  intros pre cmd r post E.
  destruct pre as [|x [|y pre]]; simpl in E; discriminate.
Qed.

Lemma announced_weaken ts ts' fs fs' tr :
  (forall t, In t ts -> In t ts') -> (forall f, In f fs -> In f fs') ->
  announced env self ts fs tr -> announced env self ts' fs' tr.
Proof.
  intros Ht Hf H pre cmd r post E.
  destruct (H pre cmd r post E) as (pre' & t & f & H1 & H2 & H3 & H4).
  exists pre', t, f. auto.
Qed.

(** A stage that reached its invocation. *)
Lemma announced_stage t f r :
  announced env self [t] [f]
    [Makedirs (target_dir self t) (Returned tt);
     Emit (target_progress t f);
     Run (target_cmd env self t f) r].
Proof.
  intros pre cmd r' post E.
  destruct pre as [|x [|y [|z pre]]]; simpl in E; try discriminate.
  - inversion E; subst. exists [], t, f. simpl. auto.
  - injection E as _ _ _ E. destruct pre; discriminate.
Qed.

Lemma stages_announced f ts tr s :
  stages env self f ts tr s -> announced env self ts [f] tr.
Proof.
  intros H. induction H.
  - apply announced_nil.
  - apply announced_app.
    + apply (announced_weaken [t] (t :: ts) [f] [f]);
        [intros t' [<-|[]]; left; reflexivity|auto|].
      apply announced_stage.
    + apply (announced_weaken ts (t :: ts) [f] [f]);
        [intros t' Ht'; right; exact Ht'|auto|exact IHstages].
  - apply (announced_weaken [t] (t :: ts) [f] [f]);
      [intros t' [<-|[]]; left; reflexivity|auto|].
    destruct s as [t' cp|t' e|t' e]; simpl in H; subst t'; simpl.
    + apply announced_stage.
    + apply announced_stage.
    + intros pre cmd r post E.
      destruct pre as [|x pre]; simpl in E; try discriminate.
      injection E as _ E. destruct pre; discriminate.
Qed.

Lemma blocks_announced total i files tr h :
  blocks env self total i files tr h -> announced env self (plan self) files tr.
Proof.
  intros H. induction H.
  - apply announced_nil.
  - apply announced_emit, announced_app.
    + apply (announced_weaken (plan self) (plan self) [f] (f :: fs));
        [auto|intros f' [<-|[]]; left; reflexivity|].
      apply (stages_announced f (plan self) b None H).
    + apply (announced_weaken (plan self) (plan self) fs (f :: fs));
        [auto|intros f' Hf'; right; exact Hf'|exact IHblocks].
  - apply announced_emit.
    apply (announced_weaken (plan self) (plan self) [f] (f :: fs));
      [auto|intros f' [<-|[]]; left; reflexivity|].
    apply (stages_announced f (plan self) b (Some s) H).
Qed.

Lemma stages_no_plan f tr s :
  stages env self f [] tr s -> tr = [] /\ s = None.
Proof. intros H. inversion H; auto. Qed.

Lemma blocks_no_plan total i files tr h :
  plan self = [] ->
  blocks env self total i files tr h ->
  tr = map (fun p => Emit (processing_notification total p)) (enumerate_from i files)
  /\ h = None.
Proof.
  intros Hp H. induction H.
  - auto.
  - rewrite Hp in H. destruct (stages_no_plan f b None H) as [-> _].
    destruct IHblocks as [-> ->]. rewrite enumerate_from_cons. auto.
  - rewrite Hp in H. destruct (stages_no_plan f b (Some s) H) as [_ Hs].
    discriminate.
Qed.

End Invocations.

(** X2: in a run all of whose calls succeed, the subprocesses are spawned
    file after file in list order and, for each file, in the order of the
    enabled targets: the schema compiler for Java first, then the toolchain
    for Python. *)
Theorem successful_run_commands (env : Environment) (self : ProtocWorker)
    (w : World env) :
  Forall succeeded (trace_of env self w) ->
  commands (trace_of env self w)
  = flat_map (fun f => map (fun t => target_cmd env self t f) (plan self))
      (proto_files self).
Proof.
  intros Hall.
  destruct (all_succeeded_completes env self w Hall) as (tr & Hb & Ht).
  rewrite Ht, commands_app. simpl. rewrite app_nil_r.
  apply (blocks_completed_commands env self _ _ _ _ Hb).
Qed.

Lemma successful_run_commands_witness :
  commands
    (trace_of all_ok
       (init ["/srv/a.proto"; "b.proto"] "out" true true false None None)
       (0, 0))
  = [["protoc"; "--java_out=out/java"; "--proto_path=/srv"; "/srv/a.proto"];
     ["/usr/bin/python3"; "-m"; "grpc_tools.protoc"; "--python_out=out/python";
      "--proto_path=/srv"; "/srv/a.proto"];
     ["protoc"; "--java_out=out/java"; "--proto_path=."; "b.proto"];
     ["/usr/bin/python3"; "-m"; "grpc_tools.protoc"; "--python_out=out/python";
      "--proto_path=."; "b.proto"]].
Proof.
  apply (successful_run_commands all_ok
           (init ["/srv/a.proto"; "b.proto"] "out" true true false None None)
           (0, 0)).
  repeat constructor.
Defined.

(** X3: every subprocess of a run is spawned right after its output
    directory was made (the call returned) and after the progress
    notification that names its target and its file; the directory in its
    [--..._out] option is the one just made. *)
Theorem every_invocation_is_announced (env : Environment) (self : ProtocWorker)
    (w : World env) (pre : list event) (cmd : list string)
    (r : outcome CompletedProcess) (post : list event) :
  trace_of env self w = (pre ++ Run cmd r :: post)%list ->
  exists pre' t f,
    In t (plan self) /\ In f (proto_files self)
    /\ pre = (pre' ++ [Makedirs (target_dir self t) (Returned tt);
                       Emit (target_progress t f)])%list
    /\ cmd = target_cmd env self t f.
Proof.
  intros E.
  destruct (run_shape env self w) as (tr & h & Hb & Ht & _).
  pose proof (blocks_announced env self _ _ _ _ _ Hb) as Ha.
  assert (Hc : announced env self (plan self) (proto_files self)
                 [Emit (closing self h)]).
  { apply announced_emit, announced_nil. }
  rewrite Ht in E.
  exact (announced_app env self _ _ _ _ Ha Hc pre cmd r post E).
Qed.

Lemma every_invocation_is_announced_witness :
  exists pre' t f,
    In t (plan one_file_java) /\ In f (proto_files one_file_java)
    /\ [Emit (Progress "正在处理: user.proto (1/1)");
        Makedirs "out/java" (Returned tt);
        Emit (Progress "生成Java代码: user.proto")]
       = (pre' ++ [Makedirs (target_dir one_file_java t) (Returned tt);
                   Emit (target_progress t f)])%list
    /\ ["protoc"; "--java_out=out/java"; "--proto_path=/srv/api";
        "/srv/api/user.proto"]
       = target_cmd (fails_at 0) one_file_java t f.
Proof.
  apply (every_invocation_is_announced (fails_at 0) one_file_java (0, 0)
           _ _ (Returned exit_boom) [Emit (Finished false "Java生成失败: boom")]).
  reflexivity.
Defined.


(** X5: with no target enabled the worker does not refuse: it goes through
    the files, makes no directory, spawns nothing, emits the "processing"
    notification of every file and reports success for all of them. *)
Theorem no_target_no_call (env : Environment) (self : ProtocWorker)
    (w : World env) :
  generate_java self = false ->
  generate_python self = false ->
  generate_python_grpc self = false ->
  trace_of env self w
  = (map (fun p => Emit (processing_notification (length (proto_files self)) p))
       (enumerate_from 0 (proto_files self))
     ++ [Emit (Finished true (success_text (length (proto_files self))))])%list.
Proof.
  intros Hj Hp Hg.
  assert (Hplan : plan self = []).
  { unfold plan, java_plan, python_plan. rewrite Hj, Hp, Hg. reflexivity. }
  destruct (run_shape env self w) as (tr & h & Hb & Ht & _).
  destruct (blocks_no_plan env self _ _ _ _ _ Hplan Hb) as [-> ->].
  exact Ht.
Qed.

Lemma no_target_no_call_witness :
  trace_of read_only
    (init ["/srv/a.proto"; "b.proto"] "out" false false false None None) (0, 0)
  = [Emit (Progress "正在处理: a.proto (1/2)");
     Emit (Progress "正在处理: b.proto (2/2)");
     Emit (Finished true "成功处理 2 个文件")].
Proof.
  apply (no_target_no_call read_only
           (init ["/srv/a.proto"; "b.proto"] "out" false false false None None)
           (0, 0)); reflexivity.
Defined.

Lemma startswith_app (a b : string) : startswith (a ++ b) a = true.
Proof.
  induction a as [|c a IH]; simpl; [reflexivity|].
  rewrite Ascii.eqb_refl. exact IH.
Qed.

Lemma append_inj_l (a x y : string) : a ++ x = a ++ y -> x = y.
Proof.
  induction a as [|c a IH]; simpl; intros H; [exact H|].
  injection H as H. exact (IH H).
Qed.

Lemma join_relative_prefix (a b : string) :
  PosixPath.startswith_sep b = false ->
  startswith (PosixPath.join a b) a = true.
Proof.
  intros Hb. unfold PosixPath.join. rewrite Hb.
  destruct (negb (PosixPath.nonempty a) || PosixPath.endswith_sep a);
    apply startswith_app.
Qed.

(** X6: the directories a run makes are the [java] and the [python]
    subdirectory of the output directory: their paths start with the output
    directory as given, and the two are different, so Java and Python
    output never share a directory. *)
Theorem output_subdirectories (env : Environment) (self : ProtocWorker)
    (w : World env) :
  (forall p,
     In p (made_dirs (trace_of env self w)) ->
     (p = PosixPath.join (output_dir self) "java"
      \/ p = PosixPath.join (output_dir self) "python")
     /\ startswith p (output_dir self) = true)
  /\ PosixPath.join (output_dir self) "java"
     <> PosixPath.join (output_dir self) "python".
Proof.
  split.
  - intros p Hin.
    destruct (run_shape env self w) as (tr & h & Hb & Ht & _).
    destruct (blocks_counts env self _ _ _ _ _ Hb) as (_ & _ & H3).
    rewrite Ht, made_dirs_app in Hin. simpl in Hin. rewrite app_nil_r in Hin.
    rewrite Forall_forall in H3. destruct (H3 p Hin) as (t & _ & ->).
    destruct t; unfold target_dir;
      (split; [auto|apply join_relative_prefix; reflexivity]).
  - unfold PosixPath.join. simpl.
    destruct (negb (PosixPath.nonempty (output_dir self))
              || PosixPath.endswith_sep (output_dir self));
      intros H; apply append_inj_l in H; discriminate.
Qed.

(** X7: the two Python methods never raise, whatever [subprocess.run]
    does.  Each spawns one subprocess; it returns [True] exactly when the
    subprocess was spawned and exited with code 0, and then it has emitted
    nothing; when it returns [False] it has emitted exactly one failure
    notification. *)
Theorem python_methods_never_raise (env : Environment)
    (proto_file output_dir : string) (include_args : list string)
    (w : World env) :
  (exists b w' tr,
     _generate_python_with_grpc env proto_file output_dir include_args w
     = (Returned b, w', tr)
     /\ commands tr = [grpc_cmd env output_dir include_args proto_file]
     /\ (b = true <-> Forall succeeded tr)
     /\ (b = true -> notifications tr = [])
     /\ (b = false -> exists m, notifications tr = [Finished false m]))
  /\ (exists b w' tr,
        _generate_python_only env proto_file output_dir include_args w
        = (Returned b, w', tr)
        /\ commands tr = [python_cmd env output_dir include_args proto_file]
        /\ (b = true <-> Forall succeeded tr)
        /\ (b = true -> notifications tr = [])
        /\ (b = false -> exists m, notifications tr = [Finished false m])).
Proof.
  split.
  - unfold _generate_python_with_grpc, try_except, bind, run_subprocess, emit, ret.
    destruct (subprocess_run env _ w) as [[cp|e] w1]; simpl.
    + destruct (returncode cp =? 0)%Z eqn:Erc; simpl.
      * apply Z.eqb_eq in Erc. exists true, w1. eexists. split; [reflexivity|].
        simpl. repeat split; auto; try discriminate;
          intros _; repeat constructor; exact Erc.
      * apply Z.eqb_neq in Erc. exists false, w1. eexists. split; [reflexivity|].
        simpl. repeat split; eauto; try discriminate;
          intros H; inversion H; subst; contradiction.
    + exists false, w1. eexists. split; [reflexivity|].
      simpl. repeat split; eauto; try discriminate;
        intros H; inversion H; subst; contradiction.
  - unfold _generate_python_only, try_except, bind, run_subprocess, emit, ret.
    destruct (subprocess_run env _ w) as [[cp|e] w1]; simpl.
    + destruct (returncode cp =? 0)%Z eqn:Erc; simpl.
      * apply Z.eqb_eq in Erc. exists true, w1. eexists. split; [reflexivity|].
        simpl. repeat split; auto; try discriminate;
          intros _; repeat constructor; exact Erc.
      * apply Z.eqb_neq in Erc. exists false, w1. eexists. split; [reflexivity|].
        simpl. repeat split; eauto; try discriminate;
          intros H; inversion H; subst; contradiction.
    + exists false, w1. eexists. split; [reflexivity|].
      simpl. repeat split; eauto; try discriminate;
        intros H; inversion H; subst; contradiction.
Qed.

(** Where an include argument comes from: the fallback, the directory of
    the file, or a configured path. *)
Lemma include_arg_cases (self : ProtocWorker) (f arg : string) :
  In arg (compose_include_args self f) ->
  arg = proto_path_arg "."
  \/ (PosixPath.dirname f <> EmptyString
      /\ arg = proto_path_arg (PosixPath.dirname f))
  \/ exists p, In p (include_paths self) /\ arg = proto_path_arg p.
Proof.
  unfold compose_include_args. rewrite with_include_paths_app.
  assert (Hparts : In arg (with_proto_dir f
                           ++ map proto_path_arg (include_paths self)) ->
                   (PosixPath.dirname f <> EmptyString
                    /\ arg = proto_path_arg (PosixPath.dirname f))
                   \/ exists p, In p (include_paths self)
                                /\ arg = proto_path_arg p).
  { intros Ha. apply in_app_or in Ha as [Ha|Ha].
    - left. unfold with_proto_dir in Ha.
      destruct (PosixPath.dirname f) as [|c d]; simpl in Ha; [contradiction|].
      destruct Ha as [<-|[]]. split; [discriminate|reflexivity].
    - right. apply in_map_iff in Ha as (p & <- & Hp). eauto. }
  destruct (with_proto_dir f ++ map proto_path_arg (include_paths self))%list
    as [|a l] eqn:El.
  - simpl. intros [<-|[]]. left. reflexivity.
  - intros Hin. right. apply Hparts. exact Hin.
Qed.

(** X8: when no configured include path is the empty string, no include
    argument of any file names an empty search path: each is
    [--proto_path=p] with [p] not empty. *)
Theorem no_empty_search_path (self : ProtocWorker) (f : string) :
  ~ In EmptyString (include_paths self) ->
  forall arg,
    In arg (compose_include_args self f) ->
    exists p, arg = proto_path_arg p /\ p <> EmptyString.
Proof.
  intros Hne arg Hin.
  destruct (include_arg_cases self f arg Hin) as [->|[[Hd ->]|(p & Hp & ->)]].
  - exists ".". split; [reflexivity|discriminate].
  - exists (PosixPath.dirname f). split; [reflexivity|exact Hd].
  - exists p. split; [reflexivity|]. intros ->. exact (Hne Hp).
Qed.

Lemma no_empty_search_path_witness :
  exists p, "--proto_path=/srv" = proto_path_arg p /\ p <> EmptyString.
Proof.
  apply (no_empty_search_path
           (init ["user.proto"] "out" true false false None (Some ["A"; "B"]))
           "/srv/user.proto").
  - simpl. intros [H|[H|[]]]; discriminate.
  - left. reflexivity.
Defined.

(** * The lists of the window *)

Lemma contains_In (l : list string) (x : string) :
  contains l x = true <-> In x l.
Proof.
  unfold contains. rewrite existsb_exists. split.
  - intros (y & Hy & E). apply String.eqb_eq in E. subst. exact Hy.
  - intros H. exists x. split; [exact H|apply String.eqb_refl].
Qed.

Lemma contains_not_In (l : list string) (x : string) :
  contains l x = false <-> ~ In x l.
Proof.
  rewrite <- contains_In. destruct (contains l x); split; intros H.
  - discriminate.
  - exfalso. apply H. reflexivity.
  - intros H'. discriminate.
  - reflexivity.
Qed.

Lemma NoDup_append (l added : list string) :
  NoDup l -> NoDup added -> (forall x, In x added -> ~ In x l) ->
  NoDup (l ++ added).
Proof.
  induction l as [|a l IH]; intros Hl Ha Hd; simpl; [exact Ha|].
  inversion Hl as [|? ? Hal Hl']; subst. constructor.
  - intros Hin. apply in_app_or in Hin as [Hin|Hin]; [contradiction|].
    apply (Hd a Hin). left. reflexivity.
  - apply IH; [exact Hl'|exact Ha|].
    intros x Hx Hxl. apply (Hd x Hx). right. exact Hxl.
Qed.

(** What the loop of [add_proto_files] does to the list: it appends, in
    the order of their first occurrence, the files it does not hold yet. *)
Lemma append_new_spec (files acc : list string) :
  exists added,
    append_new acc files = (acc ++ added)%list
    /\ NoDup added
    /\ (forall x, In x added -> In x files /\ ~ In x acc)
    /\ (forall x, In x files -> In x acc \/ In x added).
Proof.
  revert acc. induction files as [|f fs IH]; intros acc.
  - exists []. simpl. rewrite app_nil_r.
    repeat split; [constructor|contradiction|contradiction|contradiction].
  - unfold append_new. cbn [fold_left].
    destruct (contains acc f) eqn:Ec.
    + apply contains_In in Ec.
      destruct (IH acc) as (added & E & Hnd & Hin & Hcov).
      exists added. split; [exact E|]. split; [exact Hnd|]. split.
      * intros x Hx. destruct (Hin x Hx). split; [right|]; assumption.
      * intros x [<-|Hx]; [left; exact Ec|apply Hcov; exact Hx].
    + apply contains_not_In in Ec.
      destruct (IH (acc ++ [f])%list) as (added & E & Hnd & Hin & Hcov).
      exists (f :: added). split; [|split; [|split]].
      * unfold append_new in E. rewrite E, <- app_assoc. reflexivity.
      * constructor; [|exact Hnd].
        intros Hf. destruct (Hin f Hf) as [_ Hn]. apply Hn.
        apply in_or_app. right. left. reflexivity.
      * intros x [<-|Hx]; [split; [left; reflexivity|exact Ec]|].
        destruct (Hin x Hx) as [H1 H2]. split; [right; exact H1|].
        intros Hacc. apply H2. apply in_or_app. left. exact Hacc.
      * intros x [<-|Hx]; [right; left; reflexivity|].
        destruct (Hcov x Hx) as [H|H]; [|right; right; exact H].
        apply in_app_or in H as [H|[<-|[]]];
          [left; exact H|right; left; reflexivity].
Qed.

Lemma append_new_NoDup (files acc : list string) :
  NoDup acc -> NoDup (append_new acc files).
Proof.
  intros H. destruct (append_new_spec files acc) as (added & -> & Hnd & Hin & _).
  apply NoDup_append; [exact H|exact Hnd|].
  intros x Hx. apply (Hin x Hx).
Qed.

Lemma append_new_held (files acc : list string) :
  (forall x, In x files -> In x acc) -> append_new acc files = acc.
Proof.
  revert acc. induction files as [|f fs IH]; intros acc H; [reflexivity|].
  unfold append_new. cbn [fold_left].
  assert (Ec : contains acc f = true)
    by (apply contains_In, H; left; reflexivity).
  rewrite Ec. apply IH. intros x Hx. apply H. right. exact Hx.
Qed.

Lemma append_new_covers (files acc : list string) (x : string) :
  In x files -> In x (append_new acc files).
Proof.
  intros Hx. destruct (append_new_spec files acc) as (added & -> & _ & _ & Hcov).
  apply in_or_app. apply Hcov. exact Hx.
Qed.

(** X9: [add_proto_files] only appends: the files held before stay where
    they were, and the files appended are, without repetition, exactly the
    selected files that were not held yet; a list without duplicates stays
    so, and the list box is written to show the new list. *)
Theorem add_proto_files_appends_new (files : list string) (win : Window) :
  exists added,
    gui_proto_files (settings (add_proto_files files win))
    = (gui_proto_files (settings win) ++ added)%list
    /\ NoDup added
    /\ (forall f, In f added <->
                  In f files /\ ~ In f (gui_proto_files (settings win)))
    /\ (NoDup (gui_proto_files (settings win)) ->
        NoDup (gui_proto_files (settings (add_proto_files files win))))
    /\ file_list (add_proto_files files win)
       = file_list_text (gui_proto_files (settings (add_proto_files files win))).
Proof.
  destruct (append_new_spec files (gui_proto_files (settings win)))
    as (added & E & Hnd & Hin & Hcov).
  exists added. cbn. split; [exact E|]. split; [exact Hnd|]. split; [|split].
  - intros f. split; [apply Hin|].
    intros [Hf Hn]. destruct (Hcov f Hf) as [H|H]; [contradiction|exact H].
  - apply append_new_NoDup.
  - reflexivity.
Qed.

(** X10: selecting the same files again changes nothing: [add_proto_files]
    with a selection, done twice, leaves the window as done once; the same
    for a folder and the files found in it. *)
Theorem add_proto_files_idempotent (files : list string) (folder : string)
    (win : Window) :
  add_proto_files files (add_proto_files files win) = add_proto_files files win
  /\ add_proto_folder folder files (add_proto_folder folder files win)
     = add_proto_folder folder files win.
Proof.
  assert (E : append_new (append_new (gui_proto_files (settings win)) files) files
              = append_new (gui_proto_files (settings win)) files).
  { apply append_new_held. intros x Hx. apply append_new_covers. exact Hx. }
  split.
  - unfold add_proto_files, update_file_list, set_proto_files. cbn.
    rewrite E. reflexivity.
  - unfold add_proto_folder. destruct (PosixPath.nonempty folder); [|reflexivity].
    unfold update_file_list, set_proto_files. cbn. rewrite E. reflexivity.
Qed.

Lemma perform_keeps_lists_clean (win : Window) (a : action) :
  lists_clean win -> lists_clean (perform win a).
Proof.
  intros (Hf & Hi & He). destruct a; cbn [perform].
  - unfold lists_clean. cbn. repeat split; auto. apply append_new_NoDup, Hf.
  - unfold add_proto_folder. destruct (PosixPath.nonempty folder);
      [|repeat split; assumption].
    unfold lists_clean. cbn. repeat split; auto. apply append_new_NoDup, Hf.
  - unfold lists_clean. cbn. repeat split; auto. constructor.
  - unfold add_include_path.
    destruct directory as [|c d]; [repeat split; assumption|].
    cbn [PosixPath.nonempty andb].
    destruct (contains (gui_include_paths (settings win)) (String c d)) eqn:Ec;
      [repeat split; assumption|].
    apply contains_not_In in Ec.
    unfold lists_clean. cbn. repeat split; auto.
    + apply NoDup_append; [exact Hi|repeat constructor; intros []|].
      intros x [<-|[]]. exact Ec.
    + intros Hin. apply in_app_or in Hin as [Hin|[Hin|[]]];
        [contradiction|discriminate].
  - unfold lists_clean. cbn. repeat split; auto; try constructor; intros [].
  - unfold browse_output_dir. destruct (PosixPath.nonempty directory);
      repeat split; assumption.
  - unfold browse_protoc. destruct (PosixPath.nonempty file_path);
      repeat split; assumption.
  - unfold browse_python_interpreter. destruct (PosixPath.nonempty file_path);
      repeat split; assumption.
  - repeat split; assumption.
  - repeat split; assumption.
  - repeat split; assumption.
  - repeat split; assumption.
Qed.

Lemma actions_keep_lists_clean (actions : list action) (win : Window) :
  lists_clean win -> lists_clean (fold_left perform actions win).
Proof.
  revert win. induction actions as [|a actions IH]; intros win H; [exact H|].
  cbn [fold_left]. apply IH, perform_keeps_lists_clean, H.
Qed.

Lemma initial_window_clean (cwd executable : string) :
  lists_clean (initial_window cwd executable).
Proof.
  unfold lists_clean. cbn. repeat split; [constructor|constructor|intros []].
Qed.

(** X11: whatever the user does with the window, from its start on, the
    list of schema files never holds a path twice, and the list of include
    paths never holds a path twice nor the empty string. *)
Theorem lists_stay_clean (cwd executable : string) (actions : list action) :
  lists_clean (after cwd executable actions).
Proof.
  unfold after. apply actions_keep_lists_clean.
  apply initial_window_clean.
Qed.

Lemma perform_keeps_boxes_in_sync (win : Window) (a : action) :
  boxes_in_sync win -> boxes_in_sync (perform win a).
Proof.
  intros (Hf & Hi). destruct a; cbn [perform].
  - split; [left; reflexivity|exact Hi].
  - unfold add_proto_folder. destruct (PosixPath.nonempty folder);
      [split; [left; reflexivity|exact Hi]|split; assumption].
  - split; [left; reflexivity|exact Hi].
  - unfold add_include_path.
    destruct (PosixPath.nonempty directory
              && negb (contains (gui_include_paths (settings win)) directory));
      [split; [exact Hf|left; reflexivity]|split; assumption].
  - split; [exact Hf|left; reflexivity].
  - unfold browse_output_dir. destruct (PosixPath.nonempty directory);
      split; assumption.
  - unfold browse_protoc. destruct (PosixPath.nonempty file_path);
      split; assumption.
  - unfold browse_python_interpreter. destruct (PosixPath.nonempty file_path);
      split; assumption.
  - split; assumption.
  - split; assumption.
  - split; assumption.
  - split; assumption.
Qed.

(** X12: the two list boxes never go stale: after any sequence of actions
    each box shows the text computed from its list, or it has never been
    written and its list is still empty. *)
Theorem boxes_stay_in_sync (cwd executable : string) (actions : list action) :
  boxes_in_sync (after cwd executable actions).
Proof.
  unfold after.
  assert (H : boxes_in_sync (initial_window cwd executable)).
  { split; right; split; reflexivity. }
  revert H. generalize (initial_window cwd executable) as win.
  induction actions as [|a actions IH]; intros win H; [exact H|].
  cbn [fold_left]. apply IH, perform_keeps_boxes_in_sync, H.
Qed.

(** * The buttons that run subprocesses *)

Lemma workers_app (t1 t2 : list gui_event) :
  workers (t1 ++ t2) = (workers t1 ++ workers t2)%list.
Proof.
  induction t1 as [|ev t1 IH]; [reflexivity|].
  destruct ev; simpl; rewrite ?IH; reflexivity.
Qed.

Lemma created_dirs_app (t1 t2 : list gui_event) :
  created_dirs (t1 ++ t2) = (created_dirs t1 ++ created_dirs t2)%list.
Proof.
  induction t1 as [|ev t1 IH]; [reflexivity|].
  destruct ev; simpl; rewrite ?IH; reflexivity.
Qed.

Section Buttons.

Variable env : Environment.
Variable self : ProtoConverterGUI.

Local Arguments String.append : simpl never.

(** [check_grpcio_tools_status] runs its probe and writes the label; it
    never raises. *)
Lemma check_grpcio_tools_status_runs w :
  exists r w',
    subprocess_run env
      [python_interpreter_edit self; "-c"; "import grpc_tools.protoc; print('OK')"] w
    = (r, w')
    /\ check_grpcio_tools_status env self w
       = (Returned tt, w',
          [Probe [python_interpreter_edit self; "-c";
                  "import grpc_tools.protoc; print('OK')"] r;
           StatusLabel (status_text r)]).
Proof.
  unfold check_grpcio_tools_status, try_except, bind, probe, set_status.
  destruct (subprocess_run env _ w) as [[cp|e] w1]; simpl.
  - exists (Returned cp), w1. split; [reflexivity|].
    unfold status_text. destruct (returncode cp =? 0)%Z; reflexivity.
  - exists (Raised e), w1. split; reflexivity.
Qed.

(** [install_grpcio_tools] never raises, starts no worker and makes no
    directory. *)
Lemma install_grpcio_tools_returns w :
  exists w' tr,
    install_grpcio_tools env self w = (Returned tt, w', tr)
    /\ workers tr = [] /\ created_dirs tr = [].
Proof.
  unfold install_grpcio_tools, bind at 1, question.
  destruct (question_yes env _ _ w) as [[|] w1].
  - unfold try_except, bind, log_message, probe, message_box.
    destruct (subprocess_run env _ w1) as [[cp|e] w2].
    + destruct (returncode cp =? 0)%Z.
      * destruct (check_grpcio_tools_status_runs w2) as (r2 & w3 & _ & E).
        rewrite E. do 2 eexists. split; [reflexivity|]. split; reflexivity.
      * do 2 eexists. split; [reflexivity|]. split; reflexivity.
    + do 2 eexists. split; [reflexivity|]. split; reflexivity.
  - do 2 eexists. split; [reflexivity|]. split; reflexivity.
Qed.

(** The check for grpcio-tools in [start_conversion]: it never raises,
    starts nothing, and lets the conversion go on exactly when the box is
    not ticked or the probe exits with 0. *)
Lemma grpc_tools_check_returns (g : bool) w :
  exists b w' tr,
    grpc_tools_check env self g w = (Returned b, w', tr)
    /\ workers tr = [] /\ created_dirs tr = []
    /\ (g = false -> b = true /\ tr = [] /\ w' = w)
    /\ (g = true ->
        b = exited_zero
              (fst (subprocess_run env
                      [python_interpreter_edit self; "-c"; "import grpc_tools.protoc"]
                      w))
        /\ (b = true ->
            tr = [Probe [python_interpreter_edit self; "-c";
                         "import grpc_tools.protoc"]
                    (fst (subprocess_run env
                            [python_interpreter_edit self; "-c";
                             "import grpc_tools.protoc"] w))]
            /\ w' = snd (subprocess_run env
                           [python_interpreter_edit self; "-c";
                            "import grpc_tools.protoc"] w))).
Proof.
  unfold grpc_tools_check. destruct g.
  - unfold try_except, bind at 1, probe.
    destruct (subprocess_run env _ w) as [[cp|e] w1]; cbn [fst snd exited_zero].
    + destruct (returncode cp =? 0)%Z eqn:Erc; cbn [negb].
      * do 3 eexists. split; [reflexivity|]. cbn.
        repeat split; try discriminate; auto.
      * unfold bind at 1, question.
        destruct (question_yes env _ _ w1) as [[|] w2].
        -- unfold bind.
           destruct (install_grpcio_tools_returns w2)
             as (w3 & tr & E & Hw & Hc).
           rewrite E. do 3 eexists. split; [reflexivity|].
           cbn [app workers created_dirs].
           rewrite !workers_app, !created_dirs_app, Hw, Hc.
           repeat split; try discriminate; auto.
        -- do 3 eexists. split; [reflexivity|]. cbn.
           repeat split; try discriminate; auto.
    + do 3 eexists. split; [reflexivity|]. cbn.
      repeat split; try discriminate; auto.
  - do 3 eexists. split; [reflexivity|]. cbn.
    repeat split; try discriminate; auto.
Qed.

End Buttons.

(** * [start_conversion] beyond validation *)

Section StartConversion.

Variable env : Environment.
Variable self : ProtoConverterGUI.

Local Arguments String.append : simpl never.

(** The three ways [start_conversion] goes for a valid job: the check for
    grpcio-tools ends it; [os.makedirs] raises; the worker is started. *)
Lemma start_conversion_valid w :
  valid_job self ->
  (check_passes env self w = false
   /\ exists w' tr,
        start_conversion env self w = (Returned tt, w', tr)
        /\ workers tr = [] /\ created_dirs tr = [])
  \/ (check_passes env self w = true
      /\ exists pre e w',
           os_makedirs env (output_dir_edit self) (after_check env self w)
           = (Raised e, w')
           /\ start_conversion env self w
              = (Raised e, w',
                 (pre ++ [CreateDir (output_dir_edit self) (Raised e)])%list)
           /\ workers pre = [] /\ created_dirs pre = [])
  \/ (check_passes env self w = true
      /\ exists pre w',
           os_makedirs env (output_dir_edit self) (after_check env self w)
           = (Returned tt, w')
           /\ start_conversion env self w
              = (Returned tt, w',
                 (pre ++ [CreateDir (output_dir_edit self) (Returned tt);
                          Log "开始转换...";
                          StartWorker (worker_of self)])%list)
           /\ workers pre = [] /\ created_dirs pre = []).
Proof.
  intros (Hf & Ho & Ht).
  unfold start_conversion, check_passes, after_check, grpc_probe_cmd.
  destruct (gui_proto_files self) as [|f fs] eqn:Ef; [contradiction|].
  destruct (output_dir_edit self) as [|c d] eqn:Eo; [contradiction|].
  cbn [PosixPath.nonempty negb].
  assert (Et : negb (java_checkbox self) && negb (python_checkbox self)
               && negb (python_grpc_checkbox self) = false).
  { destruct (java_checkbox self), (python_checkbox self),
      (python_grpc_checkbox self); simpl in *; auto; discriminate. }
  rewrite Et. unfold bind, create_dir, log_message, start_worker.
  destruct (grpc_tools_check_returns env self (python_grpc_checkbox self) w)
    as (b & w1 & tr & E & Hw & Hc & Hoff & Hon).
  rewrite E.
  assert (Hb : b = negb (python_grpc_checkbox self)
                   || exited_zero
                        (fst (subprocess_run env
                                [python_interpreter_edit self; "-c";
                                 "import grpc_tools.protoc"] w))).
  { destruct (python_grpc_checkbox self).
    - destruct (Hon eq_refl) as [-> _]. reflexivity.
    - destruct (Hoff eq_refl) as [-> _]. reflexivity. }
  assert (Hw1 : b = true ->
                w1 = (if python_grpc_checkbox self
                      then snd (subprocess_run env
                                  [python_interpreter_edit self; "-c";
                                   "import grpc_tools.protoc"] w)
                      else w)).
  { intros ->. destruct (python_grpc_checkbox self).
    - destruct (Hon eq_refl) as [_ H]. apply (H eq_refl).
    - apply (Hoff eq_refl). }
  rewrite <- Hb. destruct b.
  - rewrite <- (Hw1 eq_refl).
    destruct (os_makedirs env (String c d) w1) as [[[]|e] w2] eqn:Emk.
    + right. right. split; [reflexivity|].
      exists tr, w2. split; [reflexivity|]. split; [|auto].
      unfold worker_of. rewrite Ef, Eo. reflexivity.
    + right. left. split; [reflexivity|].
      exists tr, e, w2. split; [reflexivity|]. split; [reflexivity|auto].
  - left. split; [reflexivity|].
    exists w1, (tr ++ [])%list. split; [reflexivity|].
    rewrite app_nil_r. auto.
Qed.

(** What [start_conversion] does for a job that is not valid. *)
Lemma start_conversion_invalid w :
  ~ valid_job self ->
  start_conversion env self w
  = (Returned tt, w, [MessageBox Warning "错误" (rejection_text self)]).
Proof.
  intros Hn. unfold start_conversion, rejection_text.
  destruct (gui_proto_files self) as [|f fs] eqn:Ef; [reflexivity|].
  destruct (output_dir_edit self) as [|c d] eqn:Eo; [reflexivity|].
  cbn [PosixPath.nonempty negb].
  destruct (negb (java_checkbox self) && negb (python_checkbox self)
            && negb (python_grpc_checkbox self)) eqn:Et; [reflexivity|].
  exfalso. apply Hn. unfold valid_job. rewrite Ef, Eo.
  repeat split; try discriminate.
  destruct (java_checkbox self), (python_checkbox self),
    (python_grpc_checkbox self); simpl in *; auto; discriminate.
Qed.

Lemma valid_job_dec : valid_job self \/ ~ valid_job self.
Proof.
  unfold valid_job.
  destruct (gui_proto_files self); [right; intros [H _]; contradiction|].
  destruct (output_dir_edit self); [right; intros (_ & H & _); contradiction|].
  destruct (java_checkbox self || python_checkbox self
            || python_grpc_checkbox self);
    [left; repeat split; discriminate|right; intros (_ & _ & H); discriminate].
Qed.

End StartConversion.

Section StartedWorker.

Variable env : Environment.
Variable self : ProtoConverterGUI.

(** A worker in the trace of [start_conversion] is the one built from the
    window of a valid job, started after the output directory was made. *)
Lemma worker_started_inv w wk :
  In wk (workers (snd (start_conversion env self w))) ->
  wk = worker_of self /\ valid_job self /\ check_passes env self w = true
  /\ exists pre w',
       os_makedirs env (output_dir_edit self) (after_check env self w)
       = (Returned tt, w')
       /\ start_conversion env self w
          = (Returned tt, w',
             (pre ++ [CreateDir (output_dir_edit self) (Returned tt);
                      Log "开始转换...";
                      StartWorker (worker_of self)])%list)
       /\ workers pre = [] /\ created_dirs pre = [].
Proof.
  intros Hin.
  destruct (valid_job_dec self) as [Hv|Hn].
  - destruct (start_conversion_valid env self w Hv)
      as [[_ (w' & tr & E & Hw & _)]
         |[[_ (pre & e & w' & _ & E & Hw & _)]
          |[Hc (pre & w' & Emk & E & Hw & Hd)]]];
      rewrite E in Hin; cbn [snd] in Hin.
    + rewrite Hw in Hin. contradiction.
    + rewrite workers_app, Hw in Hin. simpl in Hin. contradiction.
    + rewrite workers_app, Hw in Hin. simpl in Hin.
      destruct Hin as [<-|[]]. split; [reflexivity|]. split; [exact Hv|].
      split; [exact Hc|]. exists pre, w'. auto.
  - rewrite (start_conversion_invalid env self w Hn) in Hin.
    simpl in Hin. contradiction.
Qed.

End StartedWorker.

(** X13: [start_conversion] starts at most one worker, and only for a valid
    job that passed the check for grpcio-tools; the worker holds the lists,
    the output directory, the three flags and the compiler path of the
    window; it is started last, right after the output directory was made
    and the log line written, and [start_conversion] returns normally. *)
Theorem started_worker_has_window_settings (env : Environment)
    (self : ProtoConverterGUI) (w : World env) (wk : ProtocWorker) :
  In wk (workers (snd (start_conversion env self w))) ->
  wk = mkWorker (gui_proto_files self) (output_dir_edit self)
         (java_checkbox self) (python_checkbox self) (python_grpc_checkbox self)
         (protoc_path_edit self) (gui_include_paths self)
  /\ valid_job self
  /\ check_passes env self w = true
  /\ workers (snd (start_conversion env self w)) = [wk]
  /\ created_dirs (snd (start_conversion env self w))
     = [(output_dir_edit self, Returned tt)]
  /\ fst (fst (start_conversion env self w)) = Returned tt
  /\ exists pre,
       snd (start_conversion env self w)
       = (pre ++ [CreateDir (output_dir_edit self) (Returned tt);
                  Log "开始转换..."; StartWorker wk])%list.
Proof.
  intros Hin.
  destruct (worker_started_inv env self w wk Hin)
    as (-> & Hv & Hc & pre & w' & _ & E & Hw & Hd).
  rewrite E. cbn [fst snd].
  rewrite workers_app, created_dirs_app, Hw, Hd.
  split; [reflexivity|]. split; [exact Hv|]. split; [exact Hc|].
  split; [reflexivity|]. split; [reflexivity|]. split; [reflexivity|].
  exists pre. reflexivity.
Qed.

Lemma started_worker_has_window_settings_witness :
  worker_of ready_window
  = mkWorker ["/srv/a.proto"] "out" true false true "protoc" ["/inc"]
  /\ valid_job ready_window
  /\ check_passes all_ok ready_window (0, 0) = true
  /\ workers (snd (start_conversion all_ok ready_window (0, 0)))
     = [worker_of ready_window]
  /\ created_dirs (snd (start_conversion all_ok ready_window (0, 0)))
     = [("out", Returned tt)]
  /\ fst (fst (start_conversion all_ok ready_window (0, 0))) = Returned tt
  /\ exists pre,
       snd (start_conversion all_ok ready_window (0, 0))
       = (pre ++ [CreateDir "out" (Returned tt); Log "开始转换...";
                  StartWorker (worker_of ready_window)])%list.
Proof.
  apply (started_worker_has_window_settings all_ok ready_window (0, 0)).
  left. reflexivity.
Defined.

(** X14: with the gRPC box ticked, when the probe for grpcio-tools cannot
    be spawned or exits non-zero, [start_conversion] starts no worker and
    makes no directory, and it returns normally, whatever the user answers
    and however an installation goes. *)
Theorem failed_probe_starts_nothing (env : Environment)
    (self : ProtoConverterGUI) (w : World env) :
  python_grpc_checkbox self = true ->
  exited_zero (fst (subprocess_run env (grpc_probe_cmd self) w)) = false ->
  workers (snd (start_conversion env self w)) = []
  /\ created_dirs (snd (start_conversion env self w)) = []
  /\ fst (fst (start_conversion env self w)) = Returned tt.
Proof.
  intros Hg Hp.
  assert (Hc : check_passes env self w = false).
  { unfold check_passes. rewrite Hg, Hp. reflexivity. }
  destruct (valid_job_dec self) as [Hv|Hn].
  - destruct (start_conversion_valid env self w Hv)
      as [[_ (w' & tr & E & Hw & Hd)]|[[Hc' _]|[Hc' _]]];
      try (rewrite Hc in Hc'; discriminate).
    rewrite E. auto.
  - rewrite (start_conversion_invalid env self w Hn). auto.
Qed.

Lemma failed_probe_starts_nothing_witness :
  workers (snd (start_conversion no_interpreter ready_window (0, 0))) = []
  /\ created_dirs (snd (start_conversion no_interpreter ready_window (0, 0))) = []
  /\ fst (fst (start_conversion no_interpreter ready_window (0, 0))) = Returned tt.
Proof.
  apply (failed_probe_starts_nothing no_interpreter ready_window (0, 0));
    reflexivity.
Defined.

(** X15: the only exception that leaves [start_conversion] is one raised by
    [os.makedirs] for the output directory (the call has no handler): the
    job was valid and had passed the check, the failed call is the last
    event, and no worker is started. *)
Theorem only_makedirs_raises (env : Environment) (self : ProtoConverterGUI)
    (w : World env) (e : string) :
  fst (fst (start_conversion env self w)) = Raised e ->
  valid_job self
  /\ check_passes env self w = true
  /\ fst (os_makedirs env (output_dir_edit self) (after_check env self w))
     = Raised e
  /\ workers (snd (start_conversion env self w)) = []
  /\ exists pre,
       snd (start_conversion env self w)
       = (pre ++ [CreateDir (output_dir_edit self) (Raised e)])%list.
Proof.
  intros Hr.
  destruct (valid_job_dec self) as [Hv|Hn].
  - destruct (start_conversion_valid env self w Hv)
      as [[_ (w' & tr & E & _)]
         |[[Hc (pre & e' & w' & Emk & E & Hw & _)]
          |[_ (pre & w' & _ & E & _)]]];
      rewrite E in Hr; cbn [fst] in Hr; try discriminate.
    injection Hr as ->. rewrite E, Emk. cbn [fst snd].
    rewrite workers_app, Hw.
    split; [exact Hv|]. split; [exact Hc|]. split; [reflexivity|].
    split; [reflexivity|]. exists pre. reflexivity.
  - rewrite (start_conversion_invalid env self w Hn) in Hr. discriminate.
Qed.

Lemma only_makedirs_raises_witness :
  valid_job ready_window
  /\ check_passes read_only ready_window (0, 0) = true
  /\ fst (os_makedirs read_only "out" (after_check read_only ready_window (0, 0)))
     = Raised "Permission denied"
  /\ workers (snd (start_conversion read_only ready_window (0, 0))) = []
  /\ exists pre,
       snd (start_conversion read_only ready_window (0, 0))
       = (pre ++ [CreateDir "out" (Raised "Permission denied")])%list.
Proof.
  apply (only_makedirs_raises read_only ready_window (0, 0)).
  reflexivity.
Defined.

(** X16: a valid job that passes the check for grpcio-tools and whose
    output directory can be made does start its worker: exactly one, built
    from the window. *)
Theorem valid_job_starts_worker (env : Environment) (self : ProtoConverterGUI)
    (w : World env) :
  valid_job self ->
  check_passes env self w = true ->
  fst (os_makedirs env (output_dir_edit self) (after_check env self w))
  = Returned tt ->
  workers (snd (start_conversion env self w)) = [worker_of self]
  /\ fst (fst (start_conversion env self w)) = Returned tt.
Proof.
  intros Hv Hc Hmk.
  destruct (start_conversion_valid env self w Hv)
    as [[Hc' _]
       |[[_ (pre & e' & w' & Emk & _)]
        |[_ (pre & w' & _ & E & Hw & _)]]].
  - rewrite Hc in Hc'. discriminate.
  - rewrite Emk in Hmk. discriminate.
  - rewrite E. cbn [fst snd]. rewrite workers_app, Hw. auto.
Qed.

Lemma valid_job_starts_worker_witness :
  workers (snd (start_conversion all_ok ready_window (0, 0)))
  = [worker_of ready_window]
  /\ fst (fst (start_conversion all_ok ready_window (0, 0))) = Returned tt.
Proof.
  apply (valid_job_starts_worker all_ok ready_window (0, 0)).
  - repeat split; discriminate.
  - reflexivity.
  - reflexivity.
Defined.

(** X17: a worker started from the window, after whatever the user did
    with it, gets clean lists: no schema file twice, at least one file, at
    least one target, no include path twice, and hence no include argument
    with an empty search path for any file. *)
Theorem window_started_worker_is_clean (cwd executable : string)
    (actions : list action) (env : Environment) (w : World env)
    (wk : ProtocWorker) :
  In wk (workers (snd (start_conversion env
                         (settings (after cwd executable actions)) w))) ->
  NoDup (proto_files wk) /\ proto_files wk <> []
  /\ plan wk <> []
  /\ NoDup (include_paths wk)
  /\ forall f arg,
       In arg (compose_include_args wk f) ->
       exists p, arg = proto_path_arg p /\ p <> EmptyString.
Proof.
  intros Hin.
  destruct (worker_started_inv env _ w wk Hin) as (-> & (Hf & _ & Ht) & _).
  destruct (actions_keep_lists_clean actions _
              (initial_window_clean cwd executable)) as (Hnf & Hni & Hne).
  fold (after cwd executable actions) in Hnf, Hni, Hne.
  set (gui := settings (after cwd executable actions)) in *.
  unfold worker_of, init. cbn [proto_files include_paths].
  split; [exact Hnf|]. split; [exact Hf|]. split; [|split; [exact Hni|]].
  - unfold plan, java_plan, python_plan. cbn.
    destruct (java_checkbox gui), (python_checkbox gui),
      (python_grpc_checkbox gui); simpl in *; discriminate.
  - intros f arg Ha.
    destruct (include_arg_cases _ f arg Ha) as [->|[[Hd ->]|(p & Hp & ->)]].
    + exists ".". split; [reflexivity|discriminate].
    + exists (PosixPath.dirname f). split; [reflexivity|exact Hd].
    + exists p. split; [reflexivity|]. intros ->. exact (Hne Hp).
Qed.

Lemma window_started_worker_is_clean_witness :
  NoDup ["/srv/a.proto"; "/srv/b.proto"]
  /\ ["/srv/a.proto"; "/srv/b.proto"] <> []
  /\ plan (mkWorker ["/srv/a.proto"; "/srv/b.proto"] "out" true true false
             "protoc" ["/inc"]) <> []
  /\ NoDup ["/inc"]
  /\ forall f arg,
       In arg (compose_include_args
                 (mkWorker ["/srv/a.proto"; "/srv/b.proto"] "out" true true
                    false "protoc" ["/inc"]) f) ->
       exists p, arg = proto_path_arg p /\ p <> EmptyString.
Proof.
  apply (window_started_worker_is_clean "/home/u" "/usr/bin/python3"
           [AddProtoFiles ["/srv/a.proto"; "/srv/b.proto"; "/srv/a.proto"];
            AddIncludePath "/inc"; AddIncludePath EmptyString;
            AddIncludePath "/inc"; TypeOutputDir "out"; Tick true true false]
           all_ok (0, 0)
           (mkWorker ["/srv/a.proto"; "/srv/b.proto"] "out" true true false
              "protoc" ["/inc"])).
  left. reflexivity.
Defined.

(** X18: the run of a worker started from the window is never empty-handed:
    whatever environment it meets, it begins with the "processing"
    notification of the first file of the window's list and then asks for
    the output subdirectory of an enabled target. *)
Theorem window_started_run_begins (env : Environment)
    (self : ProtoConverterGUI) (w : World env) (wk : ProtocWorker)
    (env' : Environment) (w' : World env') :
  In wk (workers (snd (start_conversion env self w))) ->
  exists f fs t r rest,
    gui_proto_files self = f :: fs
    /\ In t (plan wk)
    /\ trace_of env' wk w'
       = Emit (Progress (processing_text f 0 (length (f :: fs))))
           :: Makedirs (target_dir wk t) r :: rest.
Proof.
  intros Hin.
  destruct (worker_started_inv env self w wk Hin) as (-> & (Hf & _ & Ht) & _).
  destruct (gui_proto_files self) as [|f fs] eqn:Ef; [contradiction|].
  assert (Hplan : exists t ts, plan (worker_of self) = t :: ts).
  { unfold plan, java_plan, python_plan, worker_of, init. cbn.
    destruct (java_checkbox self), (python_checkbox self),
      (python_grpc_checkbox self); simpl in *; eauto; discriminate. }
  destruct Hplan as (t & ts & Hplan).
  destruct (run_shape env' (worker_of self) w') as (tr & h & Hb & E & _).
  assert (Hfiles : proto_files (worker_of self) = f :: fs)
    by (unfold worker_of, init; cbn; exact Ef).
  rewrite Hfiles in Hb.
  assert (Hst : forall b s,
             stages env' (worker_of self) f (t :: ts) b s ->
             exists r b', b = Makedirs (target_dir (worker_of self) t) r :: b').
  { intros b s Hs. inversion Hs as [|t0 ts0 cp tr0 s0 Hrc Hs0|t0 ts0 s0 Ht0 Hv0];
      subst.
    - unfold stage_done. cbn [app]. do 2 eexists. reflexivity.
    - destruct s0 as [t' cp|t' e|t' e]; cbn [stop_target stop_events stage_done];
        do 2 eexists; reflexivity. }
  exists f, fs, t.
  assert (Ht' : In t (plan (worker_of self))) by (rewrite Hplan; left; reflexivity).
  inversion Hb; subst.
  - match goal with H : stages _ _ _ _ _ None |- _ =>
      rewrite Hplan in H; destruct (Hst _ _ H) as (r & b' & ->) end.
    exists r. eexists. split; [reflexivity|]. split; [exact Ht'|].
    rewrite E. reflexivity.
  - match goal with H : stages _ _ _ _ _ (Some _) |- _ =>
      rewrite Hplan in H; destruct (Hst _ _ H) as (r & b' & ->) end.
    exists r. eexists. split; [reflexivity|]. split; [exact Ht'|].
    rewrite E. reflexivity.
Qed.

Lemma window_started_run_begins_witness :
  exists f fs t r rest,
    gui_proto_files ready_window = f :: fs
    /\ In t (plan (worker_of ready_window))
    /\ trace_of read_only (worker_of ready_window) (0, 0)
       = Emit (Progress (processing_text f 0 (length (f :: fs))))
           :: Makedirs (target_dir (worker_of ready_window) t) r :: rest.
Proof.
  apply (window_started_run_begins all_ok ready_window (0, 0)
           (worker_of ready_window) read_only (0, 0)).
  left. reflexivity.
Defined.

(** X19: [install_grpcio_tools] never raises and starts no worker.  When
    the user declines, nothing is run and no box is shown.  When the user
    accepts, [pip install grpcio-tools] is the first subprocess, and exactly
    one box tells how it went: information when it exited with 0, a warning
    with its stderr when it exited otherwise, a critical box with the text
    of the exception when it could not be run; only after a successful
    installation is another subprocess run (the status probe). *)
Theorem install_grpcio_tools_contract (env : Environment)
    (self : ProtoConverterGUI) (w : World env) :
  fst (fst (install_grpcio_tools env self w)) = Returned tt
  /\ workers (snd (install_grpcio_tools env self w)) = []
  /\ (fst (question_yes env "安装确认" install_question w) = false ->
      probes (snd (install_grpcio_tools env self w)) = []
      /\ boxes (snd (install_grpcio_tools env self w)) = [])
  /\ (fst (question_yes env "安装确认" install_question w) = true ->
      exists r rest,
        r = fst (subprocess_run env (pip_cmd self)
                   (snd (question_yes env "安装确认" install_question w)))
        /\ probes (snd (install_grpcio_tools env self w))
           = (pip_cmd self, r) :: rest
        /\ (if exited_zero r
            then map fst rest = [status_probe_cmd self]
            else rest = [])
        /\ boxes (snd (install_grpcio_tools env self w)) = [install_box r]).
Proof.
  unfold install_grpcio_tools, install_question, pip_cmd, status_probe_cmd,
    bind, question, try_except, log_message, probe, message_box.
  destruct (question_yes env _ _ w) as [[|] w1]; cbn [fst snd].
  - destruct (subprocess_run env _ w1) as [[cp|e] w2]; cbn [fst].
    + unfold install_box, exited_zero.
      destruct (returncode cp =? 0)%Z eqn:Erc.
      * destruct (check_grpcio_tools_status_runs env self w2)
          as (r2 & w3 & _ & E).
        rewrite E. cbn.
        split; [reflexivity|]. split; [reflexivity|]. split; [discriminate|].
        intros _. do 2 eexists. split; [reflexivity|]. split; [reflexivity|].
        rewrite Erc. split; reflexivity.
      * cbn.
        split; [reflexivity|]. split; [reflexivity|]. split; [discriminate|].
        intros _. do 2 eexists. split; [reflexivity|]. split; [reflexivity|].
        rewrite Erc. split; reflexivity.
    + cbn.
      split; [reflexivity|]. split; [reflexivity|]. split; [discriminate|].
      intros _. do 2 eexists. split; [reflexivity|]. split; [reflexivity|].
      split; reflexivity.
  - cbn. split; [reflexivity|]. split; [reflexivity|].
    split; [intros _; split; reflexivity|discriminate].
Qed.

Lemma install_grpcio_tools_contract_witness :
  exists r rest,
    r = fst (subprocess_run willing (pip_cmd ready_window)
               (snd (question_yes willing "安装确认" install_question (0, 0))))
    /\ probes (snd (install_grpcio_tools willing ready_window (0, 0)))
       = (pip_cmd ready_window, r) :: rest
    /\ (if exited_zero r
        then map fst rest = [status_probe_cmd ready_window]
        else rest = [])
    /\ boxes (snd (install_grpcio_tools willing ready_window (0, 0)))
       = [install_box r].
Proof.
  apply (proj2 (proj2 (proj2
           (install_grpcio_tools_contract willing ready_window (0, 0))))).
  reflexivity.
Defined.

(** X20: [check_grpcio_tools_status] never raises; it runs one probe and
    writes the status label once, and the label says "installed" exactly
    when the probe was spawned and exited with 0. *)
Theorem check_grpcio_tools_status_contract (env : Environment)
    (self : ProtoConverterGUI) (w : World env) :
  exists r text,
    r = fst (subprocess_run env (status_probe_cmd self) w)
    /\ check_grpcio_tools_status env self w
       = (Returned tt, snd (subprocess_run env (status_probe_cmd self) w),
          [Probe (status_probe_cmd self) r; StatusLabel text])
    /\ (text = "✓ 已安装" <-> exited_zero r = true).
Proof.
  destruct (check_grpcio_tools_status_runs env self w) as (r & w' & Er & E).
  exists r, (status_text r). unfold status_probe_cmd. rewrite Er. cbn [fst snd].
  split; [reflexivity|]. split; [exact E|].
  unfold status_text, exited_zero. destruct r as [cp|e].
  - destruct (returncode cp =? 0)%Z; split; intros H;
      try reflexivity; discriminate.
  - split; intros H; discriminate.
Qed.

(** ** [check_python_dependencies] *)

Section DependencyReport.

Variable env : Environment.

Lemma check_dependency_returns python_exe dep w :
  check_dependency env python_exe dep w
  = (Returned (dependency_line dep
                 (fst (subprocess_run env (dependency_cmd python_exe dep) w))),
     snd (subprocess_run env (dependency_cmd python_exe dep) w),
     [Probe (dependency_cmd python_exe dep)
        (fst (subprocess_run env (dependency_cmd python_exe dep) w))]).
Proof.
  unfold check_dependency, try_except, bind, probe, ret, dependency_line.
  destruct (subprocess_run env _ w) as [[cp|e] w1]; cbn [fst snd].
  - destruct (returncode cp =? 0)%Z; reflexivity.
  - reflexivity.
Qed.

(** The loop probes every dependency of its list, in order, whatever the
    probes before did, and adds one line per dependency. *)
Lemma check_each_returns python_exe dependencies : forall results w,
  exists rs w',
    length rs = length dependencies
    /\ check_each env python_exe dependencies results w
       = (Returned
            (results
             ++ map (fun p => dependency_line (fst p) (snd p))
                  (combine dependencies rs))%list,
          w',
          map (fun p => Probe (dependency_cmd python_exe (fst p)) (snd p))
            (combine dependencies rs)).
Proof.
  induction dependencies as [|dep rest IH]; intros results w.
  - exists [], w. split; [reflexivity|]. simpl. rewrite app_nil_r. reflexivity.
  - cbn [check_each]. unfold bind.
    rewrite check_dependency_returns.
    set (r := fst (subprocess_run env (dependency_cmd python_exe dep) w)).
    set (w1 := snd (subprocess_run env (dependency_cmd python_exe dep) w)).
    destruct (IH (results ++ [dependency_line dep r])%list w1)
      as (rs & w' & Hlen & E).
    rewrite E. exists (r :: rs), w'. split; [simpl; rewrite Hlen; reflexivity|].
    cbn [combine map fst snd]. rewrite <- app_assoc. reflexivity.
Qed.

End DependencyReport.

(** X21: [check_python_dependencies] never raises and always runs three
    probes, for [protobuf], [grpcio] and [grpcio_tools] in this order (a
    probe that fails or cannot be spawned does not stop the others), and
    then shows one information box with one line per dependency: installed
    when its probe exited with 0, not installed when it exited otherwise,
    check failed when it could not be run. *)
Theorem check_python_dependencies_reports_all (env : Environment)
    (self : ProtoConverterGUI) (w : World env) :
  exists r1 r2 r3 w',
    check_python_dependencies env self w
    = (Returned tt, w',
       [Probe [python_interpreter_edit self; "-c"; "import protobuf; print('OK')"] r1;
        Probe [python_interpreter_edit self; "-c"; "import grpcio; print('OK')"] r2;
        Probe [python_interpreter_edit self; "-c";
               "import grpcio_tools; print('OK')"] r3;
        MessageBox Information "依赖检查"
          ("Python依赖检查结果:" ++ newline ++ newline
             ++ dependency_line "protobuf" r1 ++ newline
             ++ dependency_line "grpcio" r2 ++ newline
             ++ dependency_line "grpcio-tools" r3)]).
Proof.
  unfold check_python_dependencies, bind.
  destruct (check_each_returns env (python_interpreter_edit self)
              ["protobuf"; "grpcio"; "grpcio-tools"] [] w)
    as (rs & w' & Hlen & E).
  rewrite E.
  destruct rs as [|r1 [|r2 [|r3 [|r4 rs]]]]; try discriminate.
  exists r1, r2, r3, w'. reflexivity.
Qed.
